(** * dcchat: tool selection, parameter extraction and pagination

    A shallow embedding of the decision logic of [modules/zabbix_tools.py]
    and [modules/zabbix_assistant.py].

    Conventions of the embedding.
    - Python [str] values are modelled by [string] (8-bit characters); the
      case mapping [str.lower] and the regular-expression classes [\d] and
      [\s] are the ASCII ones.
    - A Python computation that may raise is a value of [result]: [Ok v] is a
      normal return, [Raise e] an exception of class [Exception].
    - The collaborators the code only calls (the Zabbix client, the language
      model, langchain's [trim_messages], the clock) are fields of an
      environment record and are never inspected.
    - Python [int] is [Z]; resource limits of the interpreter (memory, the
      cap on the number of digits in conversions between [int] and [str])
      are outside the model.
    - The compiled one-node graph of langgraph with its in-memory checkpoint
      is modelled by [workflow_stream]: a run appends the input and the
      node's update to the messages of the thread.
    - Logging calls have no effect on the values studied and are left out. *)

From Stdlib Require Import ZArith List Bool Lia Ascii String DecimalString.
Import ListNotations.

Open Scope string_scope.
Open Scope list_scope.
Open Scope Z_scope.

(** String concatenation, Python's [+] on [str]. *)
Infix "+++" := String.append (right associativity, at level 60).

(** ** Exceptions and fallible computations *)

Inductive exc : Type :=
| TypeError (msg : string)
| AttributeError (msg : string)
| KeyError (key : string)
| IndexError (msg : string)
| ValueError (msg : string)
| ZeroDivisionError (msg : string)
| OtherError (msg : string).

(** [str(e)]: the message, and for [KeyError] the quoted key. *)
Definition str_exc (e : exc) : string :=
  match e with
  | TypeError m | AttributeError m | IndexError m
  | ValueError m | ZeroDivisionError m | OtherError m => m
  | KeyError k => "'" +++ k +++ "'"
  end.

Inductive result (A : Type) : Type :=
| Ok (a : A)
| Raise (e : exc).

Arguments Ok {A} a.
Arguments Raise {A} e.

Definition bind {A B : Type} (c : result A) (k : A -> result B) : result B :=
  match c with
  | Ok a => k a
  | Raise e => Raise e
  end.

Notation "x <- c ;; k" := (bind c (fun x => k))
  (at level 61, c at next level, right associativity).

(** [try: body  except Exception as e: handler e] *)
Definition try_except {A : Type} (body : result A) (handler : exc -> result A)
  : result A :=
  match body with
  | Ok a => Ok a
  | Raise e => handler e
  end.

(** ** Strings *)

Definition nl : string := String (ascii_of_nat 10) EmptyString.

Definition is_upper (c : ascii) : bool :=
  (65 <=? nat_of_ascii c)%nat && (nat_of_ascii c <=? 90)%nat.

Definition lower_ascii (c : ascii) : ascii :=
  if is_upper c then ascii_of_nat (nat_of_ascii c + 32) else c.

(** [s.lower()] *)
Fixpoint lower (s : string) : string :=
  match s with
  | EmptyString => EmptyString
  | String c s' => String (lower_ascii c) (lower s')
  end.

(** [needle in hay] for two strings. *)
Fixpoint py_in (needle hay : string) : bool :=
  match hay with
  | EmptyString => prefix needle EmptyString
  | String _ hay' => prefix needle hay || py_in needle hay'
  end.

(** [sep.join(parts)] *)
Definition join (sep : string) (parts : list string) : string :=
  String.concat sep parts.

(** [str(n)] for an [int]. *)
Definition str_int (n : Z) : string := NilZero.string_of_int (Z.to_int n).

(** [s.endswith(suffix)] *)
Definition endswith (s suffix : string) : bool :=
  let n := String.length s in
  let m := String.length suffix in
  (m <=? n)%nat && String.eqb (substring (n - m) m s) suffix.

(** ** Sequences *)

(** Normalisation of one bound of a slice against the length. *)
Definition slice_bound (len i : Z) : Z :=
  if i <? 0 then Z.max 0 (i + len) else Z.min i len.

(** [l[start:stop]] with Python's treatment of negative and out-of-range
    bounds; [None] is an omitted bound. *)
Definition py_slice {A : Type} (l : list A) (start stop : option Z) : list A :=
  let len := Z.of_nat (List.length l) in
  let lo := match start with None => 0 | Some i => slice_bound len i end in
  let hi := match stop with None => len | Some j => slice_bound len j end in
  firstn (Z.to_nat (hi - lo)) (skipn (Z.to_nat lo) l).

(** [a // b] *)
Definition floordiv (a b : Z) : result Z :=
  if b =? 0 then Raise (ZeroDivisionError "integer division or modulo by zero")
  else Ok (a / b).

(** ** [ZabbixDataHandler] *)

Module ZabbixDataHandler.

Record Page : Type := mkPage {
  content : string;
  total_items : Z;
  total_pages : Z;
  current_page : Z;
  page_size : Z
}.

Section Paginate.

Context {A : Type}.
(** [str(item)] of the default formatter. *)
Variable str_item : A -> string.

(** The slice [data[start_index:end_index]] of [paginate_response]. *)
Definition paginated_data (data : list A) (page page_size : Z) : list A :=
  let start_index := (page - 1) * page_size in
  let end_index := start_index + page_size in
  py_slice data (Some start_index) (Some end_index).

Definition paginate_response (data : list A) (page page_size : Z)
    (formatter : option (list A -> result string)) : result Page :=
  let total_items := Z.of_nat (List.length data) in
  total_pages <- floordiv (total_items + page_size - 1) page_size ;;
  let items := paginated_data data page page_size in
  formatted_content <-
    match formatter with
    | Some f => f items
    | None => Ok (join nl (map str_item items))
    end ;;
  Ok (mkPage formatted_content total_items total_pages page page_size).

End Paginate.

End ZabbixDataHandler.


(** ** [int(...)] on text *)

Definition is_digit (c : ascii) : bool :=
  (48 <=? nat_of_ascii c)%nat && (nat_of_ascii c <=? 57)%nat.

(** ASCII whitespace as [str.isspace] and the class [\s] see it. *)
Definition is_space (c : ascii) : bool :=
  let n := nat_of_ascii c in
  ((9 <=? n)%nat && (n <=? 13)%nat) || ((28 <=? n)%nat && (n <=? 32)%nat).

Definition digit_value (c : ascii) : Z := Z.of_nat (nat_of_ascii c) - 48.

Fixpoint lstrip (s : string) : string :=
  match s with
  | EmptyString => EmptyString
  | String c s' => if is_space c then lstrip s' else s
  end.

Fixpoint rstrip (s : string) : string :=
  match s with
  | EmptyString => EmptyString
  | String c s' =>
      match rstrip s' with
      | EmptyString => if is_space c then EmptyString else String c EmptyString
      | r => String c r
      end
  end.

Definition strip (s : string) : string := rstrip (lstrip s).

(** The digits of an integer literal: a digit, then digits each optionally
    preceded by one underscore. *)
Fixpoint int_digits (acc : Z) (after_digit : bool) (s : string) : option Z :=
  match s with
  | EmptyString => if after_digit then Some acc else None
  | String c s' =>
      if is_digit c then int_digits (10 * acc + digit_value c) true s'
      else if Ascii.eqb c "_" && after_digit then int_digits acc false s'
      else None
  end.

(** [int(s)] for a [str] in base 10: surrounding whitespace, an optional
    sign, digits. Anything else is a [ValueError]. (The interpreter's
    configurable cap on the number of digits is not modelled.) *)
Definition py_int (s : string) : result Z :=
  let t := strip s in
  let parsed :=
    match t with
    | String "-" r => option_map Z.opp (int_digits 0 false r)
    | String "+" r => int_digits 0 false r
    | _ => int_digits 0 false t
    end in
  match parsed with
  | Some n => Ok n
  | None => Raise (ValueError ("invalid literal for int() with base 10: '" +++ s +++ "'"))
  end.

(** [int(x)] where [x] may be [None], as for [m.group(1)]. *)
Definition py_int_opt (x : option string) : result Z :=
  match x with
  | Some s => py_int s
  | None => Raise (TypeError "int() argument must be a string, a bytes-like object or a real number, not 'NoneType'")
  end.

(** ** Regular expressions, as the [re] module matches them

    A backtracking matcher in continuation-passing style: alternatives are
    tried left to right, [*], [+] and [?] are greedy, and the first complete
    match found is the one returned. *)

Inductive regex : Type :=
| Eps
| Class (p : ascii -> bool)
| Cat (r1 r2 : regex)
| Alt (r1 r2 : regex)
| Star (r : regex)
| Opt (r : regex)
| Group (n : nat) (r : regex).

Definition Chr (c : ascii) : regex := Class (Ascii.eqb c).

Fixpoint Lit (s : string) : regex :=
  match s with
  | EmptyString => Eps
  | String c s' => Cat (Chr c) (Lit s')
  end.

Definition Plus (r : regex) : regex := Cat r (Star r).

(** Captured groups of a match object, most recent binding first. *)
Definition captures : Type := list (nat * string).

Fixpoint group (n : nat) (m : captures) : option string :=
  match m with
  | [] => None
  | (k, s) :: m' => if Nat.eqb k n then Some s else group n m'
  end.

Definition cont : Type := string -> captures -> option captures.

(** Greedy iteration of [step]: one more round first, and only if that
    fails the continuation. [fuel] bounds the rounds by the input length;
    a round that consumes nothing is not repeated. *)
Fixpoint star_loop (step : string -> captures -> cont -> option captures)
    (fuel : nat) (s : string) (caps : captures) (k : cont) : option captures :=
  match fuel with
  | O => k s caps
  | S fuel' =>
      match step s caps
              (fun s1 c1 =>
                 if (String.length s1 <? String.length s)%nat
                 then star_loop step fuel' s1 c1 k else None) with
      | Some m => Some m
      | None => k s caps
      end
  end.

Fixpoint rmatch (r : regex) (s : string) (caps : captures) (k : cont)
  : option captures :=
  match r with
  | Eps => k s caps
  | Class p =>
      match s with
      | String c s' => if p c then k s' caps else None
      | EmptyString => None
      end
  | Cat r1 r2 => rmatch r1 s caps (fun s1 c1 => rmatch r2 s1 c1 k)
  | Alt r1 r2 =>
      match rmatch r1 s caps k with
      | Some m => Some m
      | None => rmatch r2 s caps k
      end
  | Star r1 => star_loop (rmatch r1) (String.length s) s caps k
  | Opt r1 =>
      match rmatch r1 s caps k with
      | Some m => Some m
      | None => k s caps
      end
  | Group n r1 =>
      rmatch r1 s caps
        (fun s1 c1 =>
           k s1 ((n, substring 0 (String.length s - String.length s1) s) :: c1))
  end.

(** [re.search(r, s)]: the match at the leftmost position that has one. *)
Fixpoint re_search (r : regex) (s : string) : option captures :=
  match rmatch r s [] (fun _ caps => Some caps) with
  | Some m => Some m
  | None =>
      match s with
      | EmptyString => None
      | String _ s' => re_search r s'
      end
  end.

(** ** Parameter extraction ([ZabbixAssistant]) *)

(** [r'(\d+)\s*(hosts?|triggers?|items?)'] *)
Definition limit_pattern : regex :=
  Cat (Group 1 (Plus (Class is_digit)))
   (Cat (Star (Class is_space))
     (Group 2 (Alt (Cat (Lit "host") (Opt (Chr "s")))
              (Alt (Cat (Lit "trigger") (Opt (Chr "s")))
                   (Cat (Lit "item") (Opt (Chr "s"))))))).

Definition _extract_limit (query : string) : result (option Z) :=
  match re_search limit_pattern (lower query) with
  | Some limit_match => n <- py_int_opt (group 1 limit_match) ;; Ok (Some n)
  | None => Ok None
  end.

(** The dictionary of [_extract_severity], in insertion order. *)
Definition severity_map : list (string * string) :=
  [ ("not classified", "not_classified");
    ("information", "information");
    ("warning", "warning");
    ("average", "average");
    ("high", "high");
    ("disaster", "disaster") ].

(** The [for] loop over [severity_map.items()]. *)
Fixpoint first_severity (entries : list (string * string)) (query : string)
  : option (list string) :=
  match entries with
  | [] => None
  | (severity, mapped_severity) :: rest =>
      if py_in severity query then Some [mapped_severity]
      else first_severity rest query
  end.

Definition _extract_severity (query : string) : option (list string) :=
  first_severity severity_map (lower query).

(** ** Values exchanged with the collaborators *)

(** One monitoring entity as the API returns it: a dictionary whose scalar
    properties are strings. *)
Definition Dict : Type := list (string * string).

Fixpoint dict_get (d : Dict) (k : string) : option string :=
  match d with
  | [] => None
  | (k', v) :: d' => if String.eqb k' k then Some v else dict_get d' k
  end.

(** [d[k]] *)
Definition getitem (d : Dict) (k : string) : result string :=
  match dict_get d k with
  | Some v => Ok v
  | None => Raise (KeyError k)
  end.

(** [d.get(k, default)] *)
Definition get_or (d : Dict) (k default : string) : string :=
  match dict_get d k with
  | Some v => v
  | None => default
  end.

(** [str(d)], used only by the default formatter of [paginate_response]. *)
Definition str_dict (d : Dict) : string :=
  "{" +++ join ", " (map (fun kv => "'" +++ fst kv +++ "': '" +++ snd kv +++ "'") d) +++ "}".

(** Request parameters handed to the API client. *)
#[local] Set Warnings "-register-all".
Inductive jval : Type :=
| JStr (s : string)
| JInt (n : Z)
| JList (l : list jval)
| JDict (d : list (string * jval)).

(** The part of the [pyzabbix] client the expanded methods call. *)
Record ZabbixAPI : Type := {
  host_get : list (string * jval) -> result (list Dict);
  trigger_get : list (string * jval) -> result (list Dict)
}.

Inductive Role : Type := system | human | ai.

Record Message : Type := mkMessage { role : Role; content : string }.

Definition SystemMessage (c : string) : Message := mkMessage system c.
Definition HumanMessage (c : string) : Message := mkMessage human c.
Definition AIMessage (c : string) : Message := mkMessage ai c.

(** What is sent to the language model. Each constructor stands for one
    fixed prompt template of [zabbix_assistant.py] and carries the parts of
    it that vary: the tool-selection prompt of [_select_tool], the few-shot
    interpretation prompt of [chatbot_agent], the system-prompted chat of
    [_default_response]. *)
Inductive Prompt : Type :=
| ToolSelectionPrompt (tool_descriptions : string) (messages : list Message)
| InterpretationPrompt (user_query tool_response : string)
| DefaultPrompt (messages : list Message).

(** Python objects passed as arguments. *)
Inductive pyval : Type :=
| VNone
| VInt (n : Z)
| VBool (b : bool)
| VStrList (l : list string).

(** The collaborators of one turn. [llm] is the chain
    [prompt | self.llm | StrOutputParser()]; [trim_messages] is langchain's
    trimmer with the model as token counter; [strftime] renders a timestamp
    in local time; [other_method] stands for the methods of
    [ZabbixToolFunctions] that are not expanded below, by name and
    positional arguments. *)
Record Env : Type := {
  zabbix : option ZabbixAPI;
  llm : Prompt -> result string;
  trim_messages : Z -> list Message -> result (list Message);
  strftime : Z -> result string;
  other_method : string -> list pyval -> result string
}.

(** ** Calling a Python function with keyword arguments *)

Definition kwargs : Type := list (string * pyval).

Fixpoint kw_get (kw : kwargs) (k : string) : option pyval :=
  match kw with
  | [] => None
  | (k', v) :: kw' => if String.eqb k' k then Some v else kw_get kw' k
  end.

(** A signature: parameter names with their defaults, [None] for a required
    parameter. *)
Definition signature : Type := list (string * option pyval).

Definition has_param (sig : signature) (k : string) : bool :=
  existsb (fun p => String.eqb (fst p) k) sig.

(** The first keyword that names no parameter. *)
Fixpoint unexpected_keyword (sig : signature) (kw : kwargs) : option string :=
  match kw with
  | [] => None
  | (k, _) :: kw' => if has_param sig k then unexpected_keyword sig kw' else Some k
  end.

Fixpoint fill_params (fname : string) (sig : signature) (kw : kwargs)
  : result kwargs :=
  match sig with
  | [] => Ok []
  | (p, default) :: sig' =>
      v <- match kw_get kw p, default with
           | Some v, _ => Ok v
           | None, Some d => Ok d
           | None, None =>
               Raise (TypeError (fname +++ "() missing 1 required positional argument: '" +++ p +++ "'"))
           end ;;
      rest <- fill_params fname sig' kw ;;
      Ok ((p, v) :: rest)
  end.

(** The call of [fname] with keywords [kw] against [sig]: the bound
    parameters, or the [TypeError] of the call. *)
Definition bind_params (fname : string) (sig : signature) (kw : kwargs)
  : result kwargs :=
  match unexpected_keyword sig kw with
  | Some k =>
      Raise (TypeError (fname +++ "() got an unexpected keyword argument '" +++ k +++ "'"))
  | None => fill_params fname sig kw
  end.

(** A bound parameter. *)
Definition arg (bound : kwargs) (k : string) : pyval :=
  match kw_get bound k with
  | Some v => v
  | None => VNone
  end.

(** Truth value of an object. *)
Definition truthy (v : pyval) : bool :=
  match v with
  | VNone => false
  | VInt n => negb (n =? 0)
  | VBool b => b
  | VStrList l => match l with [] => false | _ => true end
  end.

(** [a or b] *)
Definition py_or (a b : pyval) : pyval := if truthy a then a else b.

(** The operand of integer arithmetic. *)
Definition as_int (v : pyval) : result Z :=
  match v with
  | VInt n => Ok n
  | VBool b => Ok (if b then 1 else 0)
  | _ => Raise (TypeError "unsupported operand type(s)")
  end.

(** The operand of a [for] loop over strings. *)
Definition as_str_list (v : pyval) : result (list string) :=
  match v with
  | VStrList l => Ok l
  | _ => Raise (TypeError "object is not iterable")
  end.

Fixpoint mapM {A B : Type} (f : A -> result B) (l : list A) : result (list B) :=
  match l with
  | [] => Ok []
  | x :: l' => y <- f x ;; ys <- mapM f l' ;; Ok (y :: ys)
  end.

(** ** [ZabbixToolFunctions] *)

Module ZabbixToolFunctions.

Section Methods.

Variable env : Env.

(** [self.zabbix.<attr>]: the client is [None] when the login failed. *)
Definition client (attr : string) : result ZabbixAPI :=
  match zabbix env with
  | Some z => Ok z
  | None => Raise (AttributeError ("'NoneType' object has no attribute '" +++ attr +++ "'"))
  end.

Definition _paginate_and_format (data : list Dict) (page page_size : Z)
    (formatter : list Dict -> result string) : result string :=
  result <- ZabbixDataHandler.paginate_response str_dict data page page_size
              (Some formatter) ;;
  Ok (ZabbixDataHandler.content result
      +++ nl +++ nl +++ "Page " +++ str_int (ZabbixDataHandler.current_page result)
      +++ " of " +++ str_int (ZabbixDataHandler.total_pages result)
      +++ " (Total Items: " +++ str_int (ZabbixDataHandler.total_items result) +++ ")").

Definition format_host (include_details : bool) (host : Dict) : result string :=
  st <- getitem host "status" ;;
  let status := if String.eqb st "0" then "Enabled" else "Disabled" in
  hname <- getitem host "name" ;;
  hostid <- getitem host "hostid" ;;
  let host_info :=
    "Host: " +++ hname +++ " (ID: " +++ hostid +++ ", Status: " +++ status +++ ")" in
  Ok (if include_details
      then host_info +++ nl +++ "  Hostname: " +++ get_or host "host" "N/A"
             +++ nl +++ "  Description: " +++ get_or host "description" "No description"
      else host_info).

Definition _host_formatter (host_list : list Dict) (include_details : bool)
  : result string :=
  formatted_hosts <- mapM (format_host include_details) host_list ;;
  Ok (join (nl +++ nl) formatted_hosts).

Definition get_hosts (kw : kwargs) : result string :=
  a <- bind_params "get_hosts"
         [("page", Some (VInt 1)); ("page_size", Some (VInt 50));
          ("include_details", Some (VBool true))] kw ;;
  try_except
    (let include_details := truthy (arg a "include_details") in
     let output_fields :=
       ["hostid"; "name"; "status"]
       ++ (if include_details then ["host"; "description"] else []) in
     z <- client "host" ;;
     hosts <- host_get z [("output", JList (map JStr output_fields))] ;;
     page <- as_int (arg a "page") ;;
     page_size <- as_int (arg a "page_size") ;;
     _paginate_and_format hosts page page_size
       (fun x => _host_formatter x include_details))
    (fun e => Ok ("Error retrieving hosts: " +++ str_exc e)).

Definition priority_map (p : Z) : string :=
  if p =? 0 then "Not Classified"
  else if p =? 1 then "Information"
  else if p =? 2 then "Warning"
  else if p =? 3 then "Average"
  else if p =? 4 then "High"
  else if p =? 5 then "Disaster"
  else "Unknown".

Definition format_trigger (trigger : Dict) : result string :=
  p <- getitem trigger "priority" ;;
  pn <- py_int p ;;
  let priority := priority_map pn in
  st <- getitem trigger "status" ;;
  let status := if String.eqb st "0" then "Enabled" else "Disabled" in
  v <- getitem trigger "value" ;;
  let value := if String.eqb v "1" then "Problem" else "OK" in
  descr <- getitem trigger "description" ;;
  triggerid <- getitem trigger "triggerid" ;;
  let trigger_info :=
    [ "Trigger: " +++ descr; "  ID: " +++ triggerid; "  Priority: " +++ priority;
      "  Status: " +++ status; "  Current State: " +++ value ] in
  trigger_info' <-
    match dict_get trigger "lastchange" with
    | Some (String c lc) =>
        n <- py_int (String c lc) ;;
        timestamp <- strftime env n ;;
        Ok (trigger_info ++ ["  Last Changed: " +++ timestamp])
    | _ => Ok trigger_info
    end ;;
  Ok (join nl trigger_info').

Definition _trigger_formatter (trigger_list : list Dict) : result string :=
  formatted_triggers <- mapM format_trigger trigger_list ;;
  Ok (join (nl +++ nl) formatted_triggers).

(** The dictionary [severity_map] of [get_triggers], with the key itself as
    default. *)
Definition severity_code (sev : string) : jval :=
  let s := lower sev in
  if String.eqb s "not_classified" then JInt 0
  else if String.eqb s "information" then JInt 1
  else if String.eqb s "warning" then JInt 2
  else if String.eqb s "average" then JInt 3
  else if String.eqb s "high" then JInt 4
  else if String.eqb s "disaster" then JInt 5
  else JStr sev.

Definition get_triggers (kw : kwargs) : result string :=
  a <- bind_params "get_triggers"
         [("page", Some (VInt 1)); ("page_size", Some (VInt 50));
          ("severity_filter", Some VNone)] kw ;;
  try_except
    (let trigger_params :=
       [("output", JList (map JStr ["triggerid"; "description"; "priority";
                                    "status"; "lastchange"; "value"]));
        ("sortfield", JStr "lastchange"); ("sortorder", JStr "DESC")] in
     trigger_params' <-
       (if truthy (arg a "severity_filter")
        then severity_filter <- as_str_list (arg a "severity_filter") ;;
             Ok (trigger_params
                 ++ [("filter",
                      JDict [("priority", JList (map severity_code severity_filter))])])
        else Ok trigger_params) ;;
     z <- client "trigger" ;;
     triggers <- trigger_get z trigger_params' ;;
     page <- as_int (arg a "page") ;;
     page_size <- as_int (arg a "page_size") ;;
     _paginate_and_format triggers page page_size _trigger_formatter)
    (fun e => Ok ("Error retrieving triggers: " +++ str_exc e)).

(** [zabbix_tools.<method>]: the class defines no method of that name. *)
Definition no_method {A : Type} (method : string) : result A :=
  Raise (AttributeError ("'ZabbixToolFunctions' object has no attribute '" +++ method +++ "'")).

End Methods.

End ZabbixToolFunctions.

(** ** The tool catalog ([initialize_zabbix_tools]) *)

Record Tool : Type := mkTool {
  name : string;
  func : kwargs -> result string;
  description : string
}.

Section Catalog.

Variable env : Env.

(** A local function [def fname(p1, ..., pn): return zabbix_tools.fname(p1, ..., pn)]
    whose parameters are all required (none when [params] is empty). *)
Definition forward (fname : string) (params : list string) (kw : kwargs)
  : result string :=
  a <- bind_params fname (map (fun p => (p, None)) params) kw ;;
  other_method env fname (map (arg a) params).

Definition get_hosts (kw : kwargs) : result string :=
  a <- bind_params "get_hosts" [("limit", Some VNone)] kw ;;
  ZabbixToolFunctions.get_hosts env [("page_size", py_or (arg a "limit") (VInt 50))].

Definition get_items : kwargs -> result string := forward "get_items" [].

Definition get_hosts_limit (kw : kwargs) : result string :=
  _ <- bind_params "get_hosts_limit"
         [("limit", Some (VInt 50)); ("page", Some (VInt 1)); ("page_size", Some (VInt 50))] kw ;;
  ZabbixToolFunctions.no_method "get_hosts_limit".

Definition get_triggers (kw : kwargs) : result string :=
  a <- bind_params "get_triggers" [("limit", Some VNone); ("severity", Some VNone)] kw ;;
  ZabbixToolFunctions.get_triggers env
    [("limit", arg a "limit"); ("severity_filter", arg a "severity")].

Definition get_events := forward "get_events" [].
Definition get_host_status := forward "get_host_status" [].
Definition get_item_values := forward "get_item_values" [].
Definition get_host_inventory := forward "get_host_inventory" [].
Definition get_host_alerts := forward "get_host_alerts" [].
Definition get_application_items := forward "get_application_items" [].

Definition get_item_by_key (kw : kwargs) : result string :=
  _ <- bind_params "get_item_by_key" [("key", None)] kw ;;
  ZabbixToolFunctions.no_method "get_item_by_key".

Definition get_event_history (kw : kwargs) : result string :=
  _ <- bind_params "get_event_history" [] kw ;;
  ZabbixToolFunctions.no_method "get_event_history".

Definition get_alert_history := forward "get_alert_history" [].
Definition get_system_performance := forward "get_system_performance" [].
Definition get_trigger_performance := forward "get_trigger_performance" [].
Definition get_graph_data := forward "get_graph_data" ["graph_id"].
Definition get_trend_data := forward "get_trend_data" ["item_id"; "time_from"; "time_to"].
Definition get_metrics_by_host := forward "get_metrics_by_host" ["host_id"].
Definition get_zabbix_performance_data := forward "get_zabbix_performance_data" [].
Definition get_db_performance := forward "get_db_performance" [].
Definition get_network_performance := forward "get_network_performance" [].
Definition get_proxy_performance := forward "get_proxy_performance" [].
Definition get_sla_data := forward "get_sla_data" ["sla_id"].
Definition get_users := forward "get_users" [].
Definition get_user_groups := forward "get_user_groups" [].
Definition get_user_roles := forward "get_user_roles" [].
Definition get_custom_item := forward "get_custom_item" ["key"].
Definition get_items_by_host_group := forward "get_items_by_host_group" ["group_id"].
Definition get_host_by_name := forward "get_host_by_name" ["name"].
Definition get_trigger_by_expression := forward "get_trigger_by_expression" ["expression"].
Definition get_dependencies_by_trigger := forward "get_dependencies_by_trigger" ["trigger_id"].
Definition get_screens := forward "get_screens" [].
Definition get_graphs_by_host := forward "get_graphs_by_host" ["host_id"].
Definition get_zabbix_api_limits := forward "get_zabbix_api_limits" [].
Definition get_scheduled_tasks := forward "get_scheduled_tasks" [].
Definition get_host_maintenance := forward "get_host_maintenance" ["host_id"].
Definition get_maintenance_periods := forward "get_maintenance_periods" [].
Definition get_automated_tasks := forward "get_automated_tasks" [].
Definition get_zabbix_task_status := forward "get_zabbix_task_status" ["task_id"].
Definition get_notification_settings := forward "get_notification_settings" [].
Definition get_zabbix_status := forward "get_zabbix_status" [].

Definition initialize_zabbix_tools : list Tool :=
  [ mkTool "Get Hosts" get_hosts "Retrieve a list of hosts.";
    mkTool "Get Hosts Limit" get_hosts_limit "Retrieve a limited number of hosts with pagination.";
    mkTool "Get Items" get_items "Retrieve a list of items.";
    mkTool "Get Triggers" get_triggers "Retrieve triggers with optional limit and severity filtering.";
    mkTool "Get Events" get_events "Retrieve events.";
    mkTool "Get Host Status" get_host_status "Get host statuses.";
    mkTool "Get Item Values" get_item_values "Get item values.";
    mkTool "Get Host Inventory" get_host_inventory "Get host inventory.";
    mkTool "Get Host Alerts" get_host_alerts "Get host alerts.";
    mkTool "Get Application Items" get_application_items "Get application items.";
    mkTool "Get Item by Key" get_item_by_key "Retrieve item using key.";
    mkTool "Get Event History" get_event_history "Get event history.";
    mkTool "Get Alert History" get_alert_history "Get alert history.";
    mkTool "Get System Performance" get_system_performance "Get system performance.";
    mkTool "Get Trigger Performance" get_trigger_performance "Get trigger performance.";
    mkTool "Get Graph Data" get_graph_data "Get graph data.";
    mkTool "Get Trend Data" get_trend_data "Get trend data.";
    mkTool "Get Metrics by Host" get_metrics_by_host "Get metrics by host.";
    mkTool "Get Zabbix Performance Data" get_zabbix_performance_data "Get Zabbix performance data.";
    mkTool "Get DB Performance" get_db_performance "Get database performance.";
    mkTool "Get Network Performance" get_network_performance "Get network performance.";
    mkTool "Get Proxy Performance" get_proxy_performance "Get proxy performance.";
    mkTool "Get SLA Data" get_sla_data "Get SLA data.";
    mkTool "Get Users" get_users "Retrieve a list of users from Zabbix.";
    mkTool "Get User Groups" get_user_groups "Get user groups.";
    mkTool "Get User Roles" get_user_roles "Get user roles.";
    mkTool "Get Custom Item" get_custom_item "Get custom item by key.";
    mkTool "Get Items by Host Group" get_items_by_host_group "Get items by host group.";
    mkTool "Get Host by Name" get_host_by_name "Get host by name.";
    mkTool "Get Trigger by Expression" get_trigger_by_expression "Get trigger by expression.";
    mkTool "Get Dependencies by Trigger" get_dependencies_by_trigger "Get dependencies.";
    mkTool "Get Screens" get_screens "Get all screens.";
    mkTool "Get Graphs by Host" get_graphs_by_host "Get graphs for host.";
    mkTool "Get Zabbix API Limits" get_zabbix_api_limits "Get API limits.";
    mkTool "Get Scheduled Tasks" get_scheduled_tasks "Get scheduled tasks.";
    mkTool "Get Host Maintenance" get_host_maintenance "Get host maintenance.";
    mkTool "Get Maintenance Periods" get_maintenance_periods "Get maintenance periods.";
    mkTool "Get Automated Tasks" get_automated_tasks "Get automated tasks.";
    mkTool "Get Zabbix Task Status" get_zabbix_task_status "Get task status.";
    mkTool "Get Notification Settings" get_notification_settings "Get notification settings.";
    mkTool "Get System Performance" get_zabbix_status
      "Retrieve system performance metrics like CPU load, memory, and disk usage." ].

End Catalog.

(** ** [ZabbixAssistant] *)

(** The graph state: the [messages] channel and [language]. *)
Record State : Type := mkState { messages : list Message; language : string }.

(** [l[-1]] *)
Definition last_item {A : Type} (l : list A) : result A :=
  match rev l with
  | x :: _ => Ok x
  | [] => Raise (IndexError "list index out of range")
  end.

Definition int_or_none (x : option Z) : pyval :=
  match x with Some n => VInt n | None => VNone end.

Definition list_or_none (x : option (list string)) : pyval :=
  match x with Some l => VStrList l | None => VNone end.

Definition unexpected_error_text : string :=
  "I encountered an unexpected error processing your request.".

Section Assistant.

Variable env : Env.
(** [self.tools] *)
Variable tools : list Tool.

Definition _trim_conversation_messages (msgs : list Message) (max_tokens : Z)
  : result (list Message) :=
  try_except (trim_messages env max_tokens msgs)
    (fun _ => Ok (py_slice msgs (Some (-5)) None)).

Definition _select_tool (trimmed_messages : list Message) : result string :=
  let tool_descriptions :=
    join nl (map (fun tool => "- " +++ name tool +++ ": " +++ description tool) tools) in
  llm env (ToolSelectionPrompt tool_descriptions trimmed_messages).

Definition _match_tools (tool_selection : string) : list Tool :=
  filter (fun tool => py_in (lower (name tool)) (lower tool_selection)) tools.

Definition _run_tool (matched_tool : Tool) (user_query : string) : result string :=
  if String.eqb (name matched_tool) "Get Hosts" then
    limit <- _extract_limit user_query ;;
    func matched_tool [("limit", int_or_none limit)]
  else if String.eqb (name matched_tool) "Get Triggers" then
    limit <- _extract_limit user_query ;;
    func matched_tool
      [("limit", int_or_none limit);
       ("severity", list_or_none (_extract_severity user_query))]
  else func matched_tool [].

(** Defined by the class, called from nowhere. *)
Definition _execute_tool (matched_tool : Tool) (user_query : string)
  : result (list Message) :=
  try_except
    (tool_response <- _run_tool matched_tool user_query ;;
     Ok [AIMessage tool_response])
    (fun _ => Ok [AIMessage ("I encountered an error with the "
                             +++ name matched_tool +++ " tool.")]).

Definition _default_response (trimmed_messages : list Message)
  : result (list Message) :=
  response <- llm env (DefaultPrompt trimmed_messages) ;;
  Ok [AIMessage response].

(** The node of the graph; the value is the [messages] entry of the update
    it returns. *)
Definition chatbot_agent (state : State) : result (list Message) :=
  trimmed_messages <- _trim_conversation_messages (messages state) 3000 ;;
  last_message <- last_item trimmed_messages ;;
  let user_query := content last_message in
  try_except
    (tool_selection <- _select_tool trimmed_messages ;;
     let matched_tools := _match_tools tool_selection in
     match matched_tools with
     | matched_tool :: _ =>
         tool_response <- _run_tool matched_tool user_query ;;
         interpreted_response <-
           llm env (InterpretationPrompt user_query tool_response) ;;
         Ok [AIMessage interpreted_response]
     | [] => _default_response trimmed_messages
     end)
    (fun _ => Ok [AIMessage unexpected_error_text]).

(** The reducer of the [messages] channel; every message here is new. *)
Definition add_messages (left right : list Message) : list Message :=
  left ++ right.

(** One run of the compiled one-node graph on a thread whose checkpoint
    holds [checkpoint]: the input is merged, the node runs, its update is
    merged and saved. The value is the new checkpoint and what the stream
    yields or raises. *)
Definition workflow_stream (checkpoint payload : list Message)
  : list Message * result (list Message) :=
  let st := add_messages checkpoint payload in
  match chatbot_agent (mkState st "English") with
  | Ok update => (add_messages st update, Ok update)
  | Raise e => (st, Raise e)
  end.

(** [interact]: the new checkpoint of the thread and the value returned
    ([None] when the loop ends without a [return]). *)
Definition interact (selected_model : option string) (checkpoint : list Message)
    (user_input : string) : list Message * option string :=
  match selected_model with
  | None | Some EmptyString =>
      (checkpoint, Some "No model selected. Please choose a model.")
  | Some _ =>
      match workflow_stream checkpoint [HumanMessage user_input] with
      | (cp, Ok update) =>
          match last_item update with
          | Ok m =>
              match role m with
              | ai => (cp, Some (content m))
              | _ => (cp, None)
              end
          | Raise e => (cp, Some ("An error occurred: " +++ str_exc e))
          end
      | (cp, Raise e) => (cp, Some ("An error occurred: " +++ str_exc e))
      end
  end.

End Assistant.

(** The assistant as [__init__] builds it: [self.tools] is the catalog over
    the same client. *)
Definition assistant_turn (env : Env) : State -> result (list Message) :=
  chatbot_agent env (initialize_zabbix_tools env).

(** ** Sample collaborators

    Concrete environments on which the statements below are exercised. *)

(** A model that answers by kind of prompt. *)
Definition scripted_llm (selection interpretation chat : result string)
  : Prompt -> result string :=
  fun p =>
    match p with
    | ToolSelectionPrompt _ _ => selection
    | InterpretationPrompt _ _ => interpretation
    | DefaultPrompt _ => chat
    end.

Definition trim_keeps_all : Z -> list Message -> result (list Message) :=
  fun _ msgs => Ok msgs.

Definition trim_fails : Z -> list Message -> result (list Message) :=
  fun _ _ => Raise (OtherError "token counting is not implemented for this model").


Definition api_with (hosts triggers : list Dict) : ZabbixAPI :=
  {| host_get := fun _ => Ok hosts; trigger_get := fun _ => Ok triggers |}.

Definition mk_env (z : option ZabbixAPI) (model : Prompt -> result string)
    (trim : Z -> list Message -> result (list Message)) : Env :=
  {| zabbix := z;
     llm := model;
     trim_messages := trim;
     strftime := fun _ => Ok "2024-01-01 00:00:00";
     other_method := fun _ _ => Ok "No data." |}.

Definition sample_trigger : Dict :=
  [("triggerid", "20002"); ("description", "Memory Leak Detected");
   ("priority", "5"); ("status", "0"); ("lastchange", "1700000000");
   ("value", "1")].

Definition sample_thread : list Message :=
  [ HumanMessage "hello"; AIMessage "Hello, how can I help?";
    HumanMessage "list hosts"; AIMessage "There are two hosts.";
    HumanMessage "and users?"; AIMessage "One user."; HumanMessage "thanks" ].

(** No client, a model that answers in general terms, a trimmer that fails. *)
Definition env_trim_fails : Env :=
  mk_env None (scripted_llm (Ok "GENERAL") (Ok "n/a") (Ok "Hi")) trim_fails.

(** ** Notions used in the statements *)

(** Every character of [s] satisfies [p]. *)
Fixpoint all_chars (p : ascii -> bool) (s : string) : bool :=
  match s with
  | EmptyString => true
  | String c s' => p c && all_chars p s'
  end.

(** The group numbers a pattern can bind. *)
Fixpoint regex_groups (r : regex) : list nat :=
  match r with
  | Eps | Class _ => []
  | Cat r1 r2 | Alt r1 r2 => regex_groups r1 ++ regex_groups r2
  | Star r1 | Opt r1 => regex_groups r1
  | Group n r1 => n :: regex_groups r1
  end.

(** Matching by [step] leaves the groups outside [G] as they were. *)
Definition preserves (step : string -> captures -> cont -> option captures)
    (G : list nat) : Prop :=
  forall s caps k m,
    step s caps k = Some m ->
    exists s' caps',
      k s' caps' = Some m /\ forall n, ~ In n G -> group n caps' = group n caps.

(** The text of the assistant message of a turn that ran [matched_tool]:
    the interpretation of the tool's text, or the fixed text of the handler
    of [chatbot_agent] when the tool or the interpretation raised. *)
Definition tool_turn_reply (env : Env) (matched_tool : Tool) (user_query : string)
  : string :=
  match _run_tool matched_tool user_query with
  | Ok tool_response =>
      match llm env (InterpretationPrompt user_query tool_response) with
      | Ok interpreted_response => interpreted_response
      | Raise _ => unexpected_error_text
      end
  | Raise _ => unexpected_error_text
  end.

(** A catalog of two tools over the same client. *)
Definition two_tools (env : Env) : list Tool :=
  [ mkTool "Get Hosts" (get_hosts env) "Retrieve a list of hosts.";
    mkTool "Get Triggers" (get_triggers env)
      "Retrieve triggers with optional limit and severity filtering." ].

(** The classifier names the trigger tool; the client has one trigger. *)
Definition env_triggers : Env :=
  mk_env (Some (api_with [] [sample_trigger]))
    (scripted_llm (Ok "Get Triggers is the best match")
       (Ok "One disaster-level trigger is active: Memory Leak Detected.")
       (Ok "Hi"))
    trim_keeps_all.


(** The classification call fails; a plain chat call would answer. *)
Definition env_selection_fails : Env :=
  mk_env (Some (api_with [] []))
    (scripted_llm (Raise (OtherError "rate limit exceeded")) (Ok "n/a")
       (Ok "Hello! How can I help you today?"))
    trim_keeps_all.

(** A model that names [selection] and repeats the tool's text as its
    interpretation, so that a turn shows what the tool returned. *)
Definition echo_llm (selection : string) : Prompt -> result string :=
  fun p =>
    match p with
    | ToolSelectionPrompt _ _ => Ok selection
    | InterpretationPrompt _ tool_response => Ok tool_response
    | DefaultPrompt _ => Ok "Hi"
    end.

Definition sample_hosts : list Dict :=
  [ [("hostid", "10001"); ("name", "web-server-01"); ("status", "0");
     ("host", "web01"); ("description", "Front end")];
    [("hostid", "10002"); ("name", "database-server-02"); ("status", "1")] ].

(** A working client and the echoing model, with the classifier's answer. *)
Definition env_echo (selection : string) : Env :=
  mk_env (Some (api_with sample_hosts [sample_trigger])) (echo_llm selection)
    trim_keeps_all.

(** * Further code of the two modules *)

(** ** [ZabbixToolFunctions.get_users] *)

(** [self.zabbix.user.get], keyed by the keyword arguments of the call. *)
Definition user_client : Type := list (string * jval) -> result (list Dict).

(** The list [user_params] of [get_users], in order. *)
Definition user_params : list (list (string * jval)) :=
  [ [("output", JList (map JStr ["userid"; "username"; "name"; "surname"]))];
    [("output", JList (map JStr ["userid"; "alias"; "name"; "surname"]))];
    [("output", JList (map JStr ["userid"; "username"]))];
    [("output", JList (map JStr ["userid"; "alias"]))];
    [("output", JStr "extend")] ].

(** Truth value of [d.get(k)]: the key is there with a non-empty value. *)
Definition get_truthy (d : Dict) (k : string) : bool :=
  match dict_get d k with
  | Some (String _ _) => true
  | _ => false
  end.

(** The body of the loop over [users]. *)
Definition format_user (user : Dict) : string :=
  let username := get_or user "username" (get_or user "alias" "N/A") in
  let user_info :=
    "User ID: " +++ get_or user "userid" "N/A" +++ nl +++ "  Username: " +++ username in
  if get_truthy user "name" || get_truthy user "surname"
  then
    let full_name :=
      strip (get_or user "name" EmptyString +++ " " +++ get_or user "surname" EmptyString) in
    user_info +++ nl +++ "  Name: " +++ full_name
  else user_info.

Definition no_users_text : string :=
  "No users could be retrieved from Zabbix. Please check your API configuration.".

Section GetUsers.

(** [self.zabbix], [None] when the login failed. *)
Variable client : option user_client.

(** The body of the inner [try]: [Ok (Some text)] is [return text],
    [Ok None] falls through to the next parameter set. *)
Definition user_attempt (params : list (string * jval)) : result (option string) :=
  user_get <-
    match client with
    | Some c => Ok c
    | None => Raise (AttributeError "'NoneType' object has no attribute 'user'")
    end ;;
  users <- user_get params ;;
  match users with
  | [] => Ok None
  | _ =>
      Ok (Some ("Users in Zabbix:" +++ nl
                +++ join (nl +++ nl) (map format_user users)))
  end.

(** The [for] loop: a failed attempt is logged and skipped. *)
Fixpoint user_attempts (remaining : list (list (string * jval))) : result string :=
  match remaining with
  | [] => Ok no_users_text
  | params :: rest =>
      match try_except (user_attempt params) (fun _ => Ok None) with
      | Ok (Some text) => Ok text
      | Ok None => user_attempts rest
      | Raise e => Raise e
      end
  end.

Definition get_users_method : result string :=
  try_except (user_attempts user_params)
    (fun e => Ok ("Error retrieving users: " +++ str_exc e)).

End GetUsers.

(** ** Notions used in the further statements *)

(** The dictionary has every key of [keys]. *)
Definition has_keys (keys : list string) (d : Dict) : bool :=
  forallb (fun k => match dict_get d k with Some _ => true | None => false end) keys.




(** The thread after a series of calls of [interact], each with the
    collaborators of its moment and the catalog built over them. *)
Fixpoint run_thread (selected_model : option string) (checkpoint : list Message)
    (turns : list (Env * string)) : list Message :=
  match turns with
  | [] => checkpoint
  | (env, user_input) :: rest =>
      run_thread selected_model
        (fst (interact env (initialize_zabbix_tools env) selected_model
                checkpoint user_input))
        rest
  end.

(** User messages and replies in turn. *)
Fixpoint exchanges (inputs replies : list string) : list Message :=
  match inputs, replies with
  | q :: inputs', r :: replies' =>
      HumanMessage q :: AIMessage r :: exchanges inputs' replies'
  | _, _ => []
  end.

(** A server that knows the login name of a user as [alias] only: a
    request whose output names [username] is refused. *)
Definition user_client_alias_only (users : list Dict) : user_client :=
  fun params =>
    match params with
    | [(_, JList fields)] =>
        if existsb (fun f => match f with
                             | JStr s => String.eqb s "username"
                             | _ => false
                             end) fields
        then Raise (OtherError "Invalid params.")
        else Ok users
    | _ => Ok users
    end.

Definition sample_users : list Dict :=
  [ [("userid", "1"); ("alias", "Admin"); ("name", "Zabbix"); ("surname", "Administrator")];
    [("userid", "2"); ("alias", "guest")] ].




(** The trimmer of [env], when it returns, returns at least one message of
    a thread that has one. *)
Definition keeps_a_message (env : Env) : Prop :=
  forall max_tokens msgs window,
    msgs <> [] -> trim_messages env max_tokens msgs = Ok window -> window <> [].

(** * Properties *)

(** ** Slices *)

Section SliceFacts.

Context {A : Type}.
Implicit Types l : list A.

Lemma firstn_skipn_app (a b : nat) l :
  firstn a l ++ firstn b (skipn a l) = firstn (a + b)%nat l.
Proof.
  revert l; induction a as [|a IH]; intros l; simpl; [reflexivity|].
  destruct l as [|x l]; simpl.
  - now rewrite firstn_nil.
  - now rewrite IH.
Qed.

(** A slice with bounds [0 <= s <= e] is [e - s] items after the first [s]. *)
Lemma py_slice_nonneg l (s e : Z) :
  0 <= s -> s <= e ->
  py_slice l (Some s) (Some e)
  = firstn (Z.to_nat (e - s)) (skipn (Z.to_nat s) l).
Proof.
  intros Hs He. unfold py_slice, slice_bound.
  destruct (Z.ltb_spec s 0) as [?|_]; [lia|].
  destruct (Z.ltb_spec e 0) as [?|_]; [lia|].
  set (len := Z.of_nat (List.length l)).
  destruct (Z.le_gt_cases len s) as [Hls|Hls].
  - rewrite !skipn_all2 by (subst len; lia). now rewrite !firstn_nil.
  - rewrite (Z.min_l s len) by lia.
    destruct (Z.le_gt_cases e len) as [Hel|Hel].
    + now rewrite (Z.min_l e len) by lia.
    + rewrite (Z.min_r e len) by lia.
      rewrite !firstn_all2; [reflexivity| |];
        rewrite length_skipn; subst len; lia.
  Qed.

(** [l[-k:]] keeps the last [k] items, all of them when there are fewer. *)
Lemma py_slice_tail l (k : nat) :
  py_slice l (Some (- Z.of_nat (S k))) None = skipn (List.length l - S k)%nat l.
Proof.
  unfold py_slice, slice_bound.
  destruct (Z.ltb_spec (- Z.of_nat (S k)) 0) as [_|?]; [|lia].
  rewrite firstn_all2.
  - f_equal. lia.
  - rewrite length_skipn. lia.
Qed.

(** Consecutive chunks of [p] items rebuild the prefix they cover. *)
Lemma chunks_concat (p m : nat) l :
  List.concat (map (fun k => firstn p (skipn (k * p)%nat l)) (seq 0 m))
  = firstn (m * p)%nat l.
Proof.
  induction m as [|m IH].
  - reflexivity.
  - rewrite seq_S, map_app, concat_app, IH. simpl.
    rewrite app_nil_r, firstn_skipn_app. f_equal. lia.
Qed.

End SliceFacts.

(** ** Pagination *)

Section PaginationFacts.

Import ZabbixDataHandler.

Context {A : Type}.
Variable str_item : A -> string.

(** The page count of the code is the least [k] with [n <= k * p]. *)
Lemma total_pages_is_ceiling (n p : Z) :
  0 <= n -> 1 <= p ->
  ((n + p - 1) / p - 1) * p < n <= (n + p - 1) / p * p.
Proof.
  intros Hn Hp.
  pose proof (Z.div_mod (n + p - 1) p ltac:(lia)) as E.
  pose proof (Z.mod_pos_bound (n + p - 1) p ltac:(lia)) as B.
  nia.
Qed.

Lemma paginated_data_chunk (data : list A) (p : Z) (k : nat) :
  1 <= p ->
  paginated_data data (Z.of_nat (S k)) p
  = firstn (Z.to_nat p) (skipn (k * Z.to_nat p)%nat data).
Proof.
  intros Hp. unfold paginated_data.
  rewrite py_slice_nonneg by nia.
  f_equal; [f_equal; lia|]. f_equal. nia.
Qed.

(** What [paginate_response] computes when the page size is not zero. *)
Lemma paginate_response_unfold (data : list A) (page p : Z) formatter :
  p <> 0 ->
  paginate_response str_item data page p formatter
  = (c <- match formatter with
          | Some f => f (paginated_data data page p)
          | None => Ok (join nl (map str_item (paginated_data data page p)))
          end ;;
     Ok (mkPage c (Z.of_nat (List.length data))
           ((Z.of_nat (List.length data) + p - 1) / p) page p)).
Proof.
  intros Hp. unfold paginate_response, floordiv.
  destruct (Z.eqb_spec p 0) as [?|_]; [contradiction|]. reflexivity.
Qed.

Lemma pages_concat (data : list A) (p : Z) :
  1 <= p ->
  let tp := (Z.of_nat (List.length data) + p - 1) / p in
  List.concat (map (fun k => paginated_data data (Z.of_nat k) p)
                 (seq 1 (Z.to_nat tp))) = data.
Proof.
  intros Hp tp.
  rewrite <- seq_shift, map_map.
  rewrite (map_ext _ (fun k => firstn (Z.to_nat p) (skipn (k * Z.to_nat p)%nat data)))
    by (intros k; now apply paginated_data_chunk).
  rewrite chunks_concat. apply firstn_all2.
  pose proof (total_pages_is_ceiling (Z.of_nat (List.length data)) p ltac:(lia) Hp).
  fold tp in H. nia.
Qed.

End PaginationFacts.

(** C4. For every page size [p >= 1] and every record list of length [n],
    [paginate_response] reports [total_pages = ceil(n / p)] (the least [k]
    with [n <= k * p]); the slices it formats for pages [1..total_pages] are
    consecutive, non-overlapping pieces whose concatenation is the input,
    so their item counts add up to [n]. *)
Theorem paginate_response_partitions_data
    (A : Type) (str_item : A -> string) (data : list A) (p : Z) :
  1 <= p ->
  let n := Z.of_nat (List.length data) in
  exists tp : Z,
    ((tp - 1) * p < n <= tp * p)
    /\ (forall page, exists r,
          ZabbixDataHandler.paginate_response str_item data page p None = Ok r)
    /\ (forall page formatter r,
          ZabbixDataHandler.paginate_response str_item data page p formatter = Ok r ->
          ZabbixDataHandler.total_pages r = tp
          /\ ZabbixDataHandler.total_items r = n
          /\ match formatter with
             | Some f =>
                 f (ZabbixDataHandler.paginated_data data page p)
                 = Ok (ZabbixDataHandler.content r)
             | None => True
             end)
    /\ List.concat
         (map (fun k => ZabbixDataHandler.paginated_data data (Z.of_nat k) p)
            (seq 1 (Z.to_nat tp))) = data
    /\ list_sum
         (map (fun k => List.length
                          (ZabbixDataHandler.paginated_data data (Z.of_nat k) p))
            (seq 1 (Z.to_nat tp))) = List.length data.
Proof.
  intros Hp n.
  exists ((n + p - 1) / p).
  split; [apply total_pages_is_ceiling; subst n; lia|].
  split.
  { intros page. rewrite paginate_response_unfold by lia. simpl. eauto. }
  split.
  { intros page formatter r. rewrite paginate_response_unfold by lia.
    destruct formatter as [f|]; simpl.
    - destruct (f _) as [c|e] eqn:E; simpl; [|discriminate].
      intros [= <-]. simpl. auto.
    - intros [= <-]. simpl. auto. }
  split; [now apply pages_concat|].
  pose proof (f_equal (@List.length A) (pages_concat data p Hp)) as L.
  simpl in L. now rewrite length_concat, map_map in L.
Qed.

Lemma paginate_response_partitions_data_witness :
  1 <= 2
  /\ exists tp : Z,
       ((tp - 1) * 2 < 5 <= tp * 2)
       /\ List.concat
            (map (fun k => ZabbixDataHandler.paginated_data [10; 20; 30; 40; 50]
                             (Z.of_nat k) 2)
               (seq 1 (Z.to_nat tp))) = [10; 20; 30; 40; 50]
       /\ list_sum
            (map (fun k => List.length
                             (ZabbixDataHandler.paginated_data [10; 20; 30; 40; 50]
                                (Z.of_nat k) 2))
               (seq 1 (Z.to_nat tp))) = 5%nat.
Proof.
  split; [lia|].
  destruct (paginate_response_partitions_data Z str_int [10; 20; 30; 40; 50] 2
              ltac:(lia)) as (tp & H1 & _ & _ & H4 & H5).
  exists tp. split; [exact H1|]. split; [exact H4 | exact H5].
Defined.

Section EmptyPage.

Import ZabbixDataHandler.

Lemma paginated_data_nil (A : Type) (page p : Z) :
  paginated_data (@nil A) page p = [].
Proof.
  unfold paginated_data, py_slice. now rewrite skipn_nil, firstn_nil.
Qed.

End EmptyPage.

(** C10. For an empty record list and any page size [p >= 1],
    [paginate_response] returns [total_items = 0], [total_pages = 0], an
    empty content string (with the default formatter, with any formatter that
    maps the empty slice to the empty string, as the host and trigger
    formatters do) and [current_page] equal to the page asked for; the
    formatted result for page 1 is the footer
    ["Page 1 of 0 (Total Items: 0)"] after two line breaks: the current page
    exceeds the page count. *)
Theorem paginate_response_empty_data
    (A : Type) (str_item : A -> string) (page p : Z) :
  1 <= p ->
  ZabbixDataHandler.paginate_response str_item [] page p None
    = Ok (ZabbixDataHandler.mkPage EmptyString 0 0 page p)
  /\ (forall f, f [] = Ok EmptyString ->
        ZabbixDataHandler.paginate_response str_item [] page p (Some f)
        = Ok (ZabbixDataHandler.mkPage EmptyString 0 0 page p))
  /\ (forall formatter, formatter [] = Ok EmptyString ->
        ZabbixToolFunctions._paginate_and_format [] 1 p formatter
        = Ok (nl +++ nl +++ "Page 1 of 0 (Total Items: 0)"))
  /\ (forall b, ZabbixToolFunctions._host_formatter [] b = Ok EmptyString)
  /\ (forall env, ZabbixToolFunctions._trigger_formatter env [] = Ok EmptyString)
  /\ endswith (nl +++ nl +++ "Page 1 of 0 (Total Items: 0)")
       "Page 1 of 0 (Total Items: 0)" = true.
Proof.
  intros Hp.
  assert (E : (0 + p - 1) / p = 0) by (apply Z.div_small; lia).
  assert (P : forall (B : Type) (si : B -> string) pg fmt,
             match fmt with Some f => f [] = Ok EmptyString | None => True end ->
             ZabbixDataHandler.paginate_response si [] pg p fmt
             = Ok (ZabbixDataHandler.mkPage EmptyString 0 0 pg p)).
  { intros B si pg fmt Hf. rewrite paginate_response_unfold by lia.
    rewrite paginated_data_nil. simpl List.length. simpl Z.of_nat. rewrite E.
    destruct fmt as [f|]; [rewrite Hf|]; reflexivity. }
  split; [now apply P|].
  split; [intros f Hf; now apply P|].
  split.
  { intros formatter Hf. unfold ZabbixToolFunctions._paginate_and_format.
    rewrite (P _ str_dict 1 (Some formatter) Hf). reflexivity. }
  repeat split; reflexivity.
Qed.

Lemma paginate_response_empty_data_witness :
  1 <= 50
  /\ ZabbixDataHandler.paginate_response str_dict [] 1 50 None
     = Ok (ZabbixDataHandler.mkPage EmptyString 0 0 1 50).
Proof.
  split; [lia|].
  exact (proj1 (paginate_response_empty_data Dict str_dict 1 50 ltac:(lia))).
Defined.

(** C7, as the claim states it, fails: a page size of 0 is not clamped to 1,
    the call raises [ZeroDivisionError] where page size 1 returns a page. *)
Lemma paginate_response_page_size_zero_raises :
  ZabbixDataHandler.paginate_response str_int [7; 8] 1 0 None
    = Raise (ZeroDivisionError "integer division or modulo by zero")
  /\ ZabbixDataHandler.paginate_response str_int [7; 8] 1 1 None
    = Ok (ZabbixDataHandler.mkPage "7" 2 2 1 1)
  /\ ZabbixDataHandler.paginate_response str_int [7; 8] 1 (-1) None
    = Ok (ZabbixDataHandler.mkPage "7" 2 0 1 (-1)).
Proof. repeat split; reflexivity. Qed.

(** C7, amended. A non-positive page size is not clamped: with page size 0
    [paginate_response] raises [ZeroDivisionError], whatever the data, page
    and formatter; a negative page size is used as given, the result
    reports it unchanged together with the floor of [(n + p - 1) / p] as
    page count. *)
Theorem paginate_response_keeps_page_size
    (A : Type) (str_item : A -> string) (data : list A) (page p : Z)
    (formatter : option (list A -> result string)) :
  p <= 0 ->
  (p = 0 ->
     ZabbixDataHandler.paginate_response str_item data page p formatter
     = Raise (ZeroDivisionError "integer division or modulo by zero"))
  /\ (p < 0 ->
        (exists r, ZabbixDataHandler.paginate_response str_item data page p None = Ok r)
        /\ forall r,
             ZabbixDataHandler.paginate_response str_item data page p formatter = Ok r ->
             ZabbixDataHandler.page_size r = p
             /\ ZabbixDataHandler.current_page r = page
             /\ ZabbixDataHandler.total_pages r
                = (Z.of_nat (List.length data) + p - 1) / p).
Proof.
  intros _. split.
  - intros ->. reflexivity.
  - intros Hp. split.
    + rewrite paginate_response_unfold by lia. simpl. eauto.
    + intros r. rewrite paginate_response_unfold by lia.
      destruct formatter as [f|]; simpl.
      * destruct (f _); simpl; [|discriminate]. intros [= <-]. auto.
      * intros [= <-]. auto.
Qed.

Lemma paginate_response_keeps_page_size_witness :
  0 <= 0
  /\ ZabbixDataHandler.paginate_response str_int [7; 8] 3 0 None
     = Raise (ZeroDivisionError "integer division or modulo by zero").
Proof.
  split; [lia|].
  exact (proj1 (paginate_response_keeps_page_size Z str_int [7; 8] 3 0 None
                  ltac:(lia)) eq_refl).
Defined.

(** ** The conversation window *)

(** C5. If the trimming step raises, [_trim_conversation_messages] does not
    raise: it returns the last five messages of the sequence, all of them
    when there are fewer than five, so a system message is kept exactly when
    it lies in that tail. *)
Theorem trim_failure_falls_back_to_last_five
    (env : Env) (msgs : list Message) (max_tokens : Z) (e : exc) :
  trim_messages env max_tokens msgs = Raise e ->
  exists older tail,
    _trim_conversation_messages env msgs max_tokens = Ok tail
    /\ msgs = older ++ tail
    /\ List.length tail = Nat.min 5 (List.length msgs).
Proof.
  intros H. unfold _trim_conversation_messages, try_except. rewrite H.
  change (-5) with (- Z.of_nat 5). rewrite py_slice_tail.
  exists (firstn (List.length msgs - 5) msgs), (skipn (List.length msgs - 5) msgs).
  split; [reflexivity|]. split.
  - symmetry. apply firstn_skipn.
  - rewrite length_skipn. lia.
Qed.

Lemma trim_failure_falls_back_to_last_five_witness :
  trim_messages env_trim_fails 3000 sample_thread
  = Raise (OtherError "token counting is not implemented for this model")
  /\ exists older tail,
       _trim_conversation_messages env_trim_fails sample_thread 3000 = Ok tail
       /\ sample_thread = older ++ tail
       /\ List.length tail = Nat.min 5 (List.length sample_thread).
Proof.
  split; [reflexivity|].
  exact (trim_failure_falls_back_to_last_five env_trim_fails sample_thread 3000
           (OtherError "token counting is not implemented for this model") eq_refl).
Defined.

(** ** Text *)

Lemma append_length (a b : string) :
  String.length (a +++ b) = (String.length a + String.length b)%nat.
Proof. induction a as [|c a IH]; simpl; [reflexivity | now rewrite IH]. Qed.


Lemma append_assoc (a b c : string) : (a +++ b) +++ c = a +++ b +++ c.
Proof. induction a as [|x a IH]; simpl; [reflexivity | now rewrite IH]. Qed.

Lemma substring_whole_prefix (a b : string) :
  substring 0 (String.length a) (a +++ b) = a.
Proof. induction a as [|c a IH]; simpl; [now destruct b | now rewrite IH]. Qed.

Lemma substring_skip (a b : string) :
  substring (String.length a) (String.length b) (a +++ b) = b.
Proof.
  induction a as [|c a IH]; simpl; [|exact IH].
  induction b as [|c b IH]; simpl; [reflexivity | now rewrite IH].
Qed.

(** [prefix n h] holds exactly when [h] starts with [n]. *)
Lemma prefix_spec (n h : string) :
  prefix n h = true <-> exists b, h = n +++ b.
Proof.
  revert h; induction n as [|c n IH]; intros h; simpl.
  - destruct h; simpl; split; eauto.
  - destruct h as [|d h]; simpl.
    + split; [discriminate | intros [b Hb]; discriminate].
    + destruct (ascii_dec c d) as [->|Hne].
      * rewrite IH. split; intros [b Hb]; exists b; congruence.
      * split; [discriminate | intros [b Hb]; congruence].
Qed.

(** [py_in n h] holds exactly when [n] occurs in [h] as a contiguous run. *)
Lemma py_in_spec (n h : string) :
  py_in n h = true <-> exists a b, h = a +++ n +++ b.
Proof.
  split.
  - induction h as [|c h IH]; cbn [py_in].
    + intros H. apply prefix_spec in H as [b Hb]. now exists EmptyString, b.
    + intros H. apply orb_true_iff in H as [H|H].
      * apply prefix_spec in H as [b Hb]. now exists EmptyString, b.
      * destruct (IH H) as (a & b & ->). now exists (String c a), b.
  - intros (a & b & ->). induction a as [|c a IH]; cbn [String.append py_in].
    + assert (P : prefix n (n +++ b) = true) by (apply prefix_spec; eauto).
      destruct (n +++ b); cbn [py_in]; [exact P | now rewrite P].
    + rewrite IH. apply orb_true_r.
Qed.

Lemma endswith_append (a b : string) : endswith (a +++ b) b = true.
Proof.
  unfold endswith. rewrite append_length.
  replace (String.length a + String.length b - String.length b)%nat
    with (String.length a) by lia.
  rewrite substring_skip, String.eqb_refl.
  rewrite andb_true_r. apply Nat.leb_le. lia.
Qed.

(** ** The pattern of [_extract_limit] *)

Lemma digit_not_space (c : ascii) : is_digit c = true -> is_space c = false.
Proof.
  unfold is_digit, is_space. intros H.
  apply andb_true_iff in H as [H1 H2].
  apply Nat.leb_le in H1. apply Nat.leb_le in H2.
  apply orb_false_iff; split; apply andb_false_iff.
  - right. apply Nat.leb_gt. lia.
  - right. apply Nat.leb_gt. lia.
Qed.

(** Greedy iteration of a character class consumes a run of the class. *)
Lemma star_loop_class (p : ascii -> bool) (k : cont) (fuel : nat) :
  forall s caps m,
    star_loop (rmatch (Class p)) fuel s caps k = Some m ->
    exists w s', s = w +++ s' /\ all_chars p w = true /\ k s' caps = Some m.
Proof.
  induction fuel as [|fuel IH]; intros s caps m; cbn [star_loop].
  - intros H. now exists EmptyString, s.
  - destruct s as [|c s]; cbn [rmatch].
    + intros H. now exists EmptyString, EmptyString.
    + destruct (p c) eqn:Hc; [|intros H; now exists EmptyString, (String c s)].
      cbn [String.length].
      replace (String.length s <? S (String.length s))%nat with true
        by (symmetry; apply Nat.ltb_lt; lia).
      match goal with
      | |- context [star_loop ?f fuel s caps k] =>
          destruct (star_loop f fuel s caps k) as [m0|] eqn:E
      end.
      * intros [= <-]. destruct (IH _ _ _ E) as (w & s' & -> & Hw & Hk).
        exists (String c w), s'. cbn [String.append all_chars].
        now rewrite Hc, Hw.
      * intros H. now exists EmptyString, (String c s).
Qed.

(** The first group binds a non-empty run of digits. *)
Lemma group_digits (k : cont) (s : string) (caps m : captures) :
  rmatch (Group 1 (Plus (Class is_digit))) s caps k = Some m ->
  exists c w s',
    s = String c (w +++ s') /\ is_digit c = true
    /\ all_chars is_digit w = true
    /\ k s' ((1%nat, String c w) :: caps) = Some m.
Proof.
  cbn [rmatch Plus]. destruct s as [|c t]; [discriminate|].
  destruct (is_digit c) eqn:Hc; [|discriminate].
  intros H. apply star_loop_class in H as (w & s' & -> & Hw & Hk).
  exists c, w, s'. repeat split; auto.
  rewrite <- Hk. do 3 f_equal.
  replace (String.length (String c (w +++ s')) - String.length s')%nat
    with (String.length (String c w))
    by (cbn [String.length]; rewrite append_length; lia).
  exact (eq_sym (substring_whole_prefix (String c w) s')).
Qed.

Lemma star_loop_preserves step G :
  preserves step G -> forall fuel, preserves (star_loop step fuel) G.
Proof.
  intros Hstep. induction fuel as [|fuel IH]; intros s caps k m; simpl.
  - intros H. now exists s, caps.
  - destruct (step s caps _) as [m0|] eqn:E.
    + intros [= <-]. apply Hstep in E as (s1 & c1 & E & Hg).
      destruct (String.length s1 <? String.length s)%nat; [|discriminate].
      apply IH in E as (s2 & c2 & E & Hg2).
      exists s2, c2. split; [exact E|]. intros n Hn.
      now rewrite Hg2, Hg.
    + intros H. now exists s, caps.
Qed.

Lemma rmatch_preserves (r : regex) : preserves (rmatch r) (regex_groups r).
Proof.
  induction r as [|p|r1 IH1 r2 IH2|r1 IH1 r2 IH2|r IH|r IH|g r IH];
    intros s caps k m; cbn [rmatch regex_groups].
  - intros H. now exists s, caps.
  - destruct s as [|c s]; [discriminate|].
    destruct (p c); [|discriminate]. intros H. now exists s, caps.
  - intros H. apply IH1 in H as (s1 & c1 & H & Hg1).
    apply IH2 in H as (s2 & c2 & H & Hg2).
    exists s2, c2. split; [exact H|]. intros n Hn.
    rewrite Hg2, Hg1; [reflexivity| |]; intros Hin; apply Hn, in_or_app; auto.
  - destruct (rmatch r1 s caps k) as [m0|] eqn:E.
    + intros [= <-]. apply IH1 in E as (s1 & c1 & E & Hg).
      exists s1, c1. split; [exact E|]. intros n Hn. apply Hg.
      intros Hin; apply Hn, in_or_app; auto.
    + intros H. apply IH2 in H as (s1 & c1 & H & Hg).
      exists s1, c1. split; [exact H|]. intros n Hn. apply Hg.
      intros Hin; apply Hn, in_or_app; auto.
  - apply star_loop_preserves, IH.
  - destruct (rmatch r s caps k) as [m0|] eqn:E.
    + intros [= <-]. now apply IH in E.
    + intros H. now exists s, caps.
  - intros H. apply IH in H as (s1 & c1 & H & Hg).
    eexists _, _. split; [exact H|]. intros n Hn. cbn [group].
    destruct (Nat.eqb_spec g n) as [->|Hne].
    + exfalso. apply Hn. now left.
    + apply Hg. intros Hin. apply Hn. now right.
Qed.

(** A match of the limit pattern always carries group 1, a digit run. *)
Lemma limit_pattern_group1 (s : string) (m : captures) :
  re_search limit_pattern s = Some m ->
  exists c w,
    is_digit c = true /\ all_chars is_digit w = true
    /\ group 1 m = Some (String c w).
Proof.
  assert (Here : forall t, rmatch limit_pattern t [] (fun _ caps => Some caps) = Some m ->
                 exists c w, is_digit c = true /\ all_chars is_digit w = true
                             /\ group 1 m = Some (String c w)).
  { intros t. unfold limit_pattern.
    remember (Cat (Star (Class is_space)) _) as rest eqn:Hrest.
    change (rmatch (Cat ?a rest) t [] ?k)
      with (rmatch a t [] (fun s1 c1 => rmatch rest s1 c1 k)).
    intros H. apply group_digits in H as (c & w & s' & -> & Hc & Hw & H).
    apply rmatch_preserves in H as (s2 & c2 & [= ->] & Hg).
    exists c, w. repeat split; auto.
    rewrite Hg; [reflexivity|].
    subst rest. cbn. intros [H|[]]. discriminate. }
  induction s as [|c s IH]; cbn [re_search].
  - destruct (rmatch limit_pattern EmptyString [] _) eqn:E; [|discriminate].
    intros [= <-]. eauto.
  - destruct (rmatch limit_pattern (String c s) [] _) eqn:E.
    + intros [= <-]. eauto.
    + exact IH.
Qed.

Lemma int_digits_total (w : string) :
  all_chars is_digit w = true ->
  forall acc, exists n, int_digits acc true w = Some n.
Proof.
  induction w as [|c w IH]; simpl; intros Hw acc; [eauto|].
  apply andb_true_iff in Hw as [Hc Hw]. rewrite Hc. now apply IH.
Qed.

Lemma rstrip_no_space (s : string) :
  all_chars (fun c => negb (is_space c)) s = true -> rstrip s = s.
Proof.
  induction s as [|c s IH]; simpl; [reflexivity|].
  intros H. apply andb_true_iff in H as [Hc Hs]. rewrite (IH Hs).
  destruct s; [|reflexivity].
  now destruct (is_space c).
Qed.

Lemma digits_no_space (w : string) :
  all_chars is_digit w = true ->
  all_chars (fun c => negb (is_space c)) w = true.
Proof.
  induction w as [|c w IH]; simpl; [reflexivity|].
  intros H. apply andb_true_iff in H as [Hc Hw].
  now rewrite (digit_not_space c Hc), IH.
Qed.

(** [int] accepts every non-empty run of digits. *)
Lemma py_int_digits (c : ascii) (w : string) :
  is_digit c = true -> all_chars is_digit w = true ->
  exists n, py_int (String c w) = Ok n.
Proof.
  intros Hc Hw. unfold py_int, strip.
  cbn [lstrip]. rewrite (digit_not_space c Hc).
  rewrite rstrip_no_space
    by (apply digits_no_space; simpl; now rewrite Hc, Hw).
  assert (P : exists n, int_digits 0 false (String c w) = Some n).
  { cbn [int_digits]. rewrite Hc. now apply int_digits_total. }
  destruct P as [n Hn].
  assert (S : match String c w with
              | String "-" r => option_map Z.opp (int_digits 0 false r)
              | String "+" r => int_digits 0 false r
              | _ => int_digits 0 false (String c w)
              end = Some n).
  { destruct c as [[] [] [] [] [] [] [] []]; try discriminate Hc; exact Hn. }
  rewrite S. eauto.
Qed.

(** ** Parameter extraction *)

Lemma extract_limit_returns (query : string) :
  exists r, _extract_limit query = Ok r.
Proof.
  unfold _extract_limit.
  destruct (re_search limit_pattern (lower query)) as [m|] eqn:E; [|eauto].
  apply limit_pattern_group1 in E as (c & w & Hc & Hw & ->).
  cbn [py_int_opt]. destruct (py_int_digits c w Hc Hw) as [n ->].
  simpl. eauto.
Qed.



(** ** Tool selection *)

Lemma filter_first {A : Type} (f : A -> bool) (l : list A) :
  match filter f l with
  | x :: _ =>
      exists before after,
        l = before ++ x :: after /\ f x = true
        /\ Forall (fun y => f y = false) before
  | [] => Forall (fun y => f y = false) l
  end.
Proof.
  induction l as [|a l IH]; cbn [filter]; [constructor|].
  destruct (f a) eqn:E.
  - exists [], l. auto.
  - destruct (filter f l) as [|x rest].
    + constructor; auto.
    + destruct IH as (before & after & -> & Hx & Hb).
      exists (a :: before), after. auto.
Qed.

(** The node once the window and the classifier's answer are known. *)
Lemma chatbot_agent_selected (env : Env) (tools : list Tool) (state : State)
    (trimmed : list Message) (m : Message) (sel : string) :
  _trim_conversation_messages env (messages state) 3000 = Ok trimmed ->
  last_item trimmed = Ok m ->
  _select_tool env tools trimmed = Ok sel ->
  chatbot_agent env tools state
  = match _match_tools tools sel with
    | matched_tool :: _ => Ok [AIMessage (tool_turn_reply env matched_tool (content m))]
    | [] =>
        try_except (_default_response env trimmed)
          (fun _ => Ok [AIMessage unexpected_error_text])
    end.
Proof.
  intros Ht Hl Hs. unfold chatbot_agent, tool_turn_reply.
  rewrite Ht. cbn [bind]. rewrite Hl. cbn [bind]. rewrite Hs. cbn [bind].
  destruct (_match_tools tools sel) as [|t rest]; [reflexivity|].
  destruct (_run_tool t (content m)) as [r|e]; cbn [bind try_except]; [|reflexivity].
  destruct (llm env _); reflexivity.
Qed.

(** A turn whose window is not empty never raises: it yields exactly one
    assistant message. *)
Lemma chatbot_agent_replies (env : Env) (tools : list Tool) (state : State)
    (trimmed : list Message) (m : Message) :
  _trim_conversation_messages env (messages state) 3000 = Ok trimmed ->
  last_item trimmed = Ok m ->
  exists reply, chatbot_agent env tools state = Ok [AIMessage reply].
Proof.
  intros Ht Hl.
  destruct (_select_tool env tools trimmed) as [sel|e] eqn:Hs.
  - rewrite (chatbot_agent_selected _ _ _ _ _ _ Ht Hl Hs).
    destruct (_match_tools tools sel); [|eauto].
    unfold _default_response. destruct (llm env _); cbn; eauto.
  - unfold chatbot_agent. rewrite Ht. cbn [bind]. rewrite Hl. cbn [bind].
    rewrite Hs. cbn. eauto.
Qed.



(** ** The catalog *)

(** C8, as the claim states it, fails: the catalog built by
    [initialize_zabbix_tools] holds the name "Get System Performance" at
    two places, so its names are not unique. *)
Lemma catalog_names_not_unique :
  nth_error (map name (initialize_zabbix_tools env_triggers)) 13
    = Some "Get System Performance"
  /\ nth_error (map name (initialize_zabbix_tools env_triggers)) 40
    = Some "Get System Performance"
  /\ ~ NoDup (map name (initialize_zabbix_tools env_triggers)).
Proof.
  split; [reflexivity|]. split; [reflexivity|].
  intros H. rewrite NoDup_nth_error in H.
  specialize (H 13%nat 40%nat). cbn in H.
  assert (E : 13%nat = 40%nat) by (apply H; [lia | reflexivity]).
  discriminate E.
Qed.

(** C8, amended. The catalog is a plain ordered list built without any
    check on names: construction cannot fail and keeps every declared entry
    (41 of them, "Get Hosts" first); when a name is looked up the entry
    selected is the earliest one in registration order that matches, so no
    entry before it carries its name. *)
Theorem catalog_is_ordered_list_first_entry_wins
    (env : Env) (tools : list Tool) (tool_selection : string)
    (matched_tool : Tool) (others : list Tool) :
  _match_tools tools tool_selection = matched_tool :: others ->
  List.length (initialize_zabbix_tools env) = 41%nat
  /\ option_map name (hd_error (initialize_zabbix_tools env)) = Some "Get Hosts"
  /\ exists before after,
       tools = before ++ matched_tool :: after
       /\ Forall (fun t => name t <> name matched_tool) before.
Proof.
  intros H. split; [reflexivity|]. split; [reflexivity|].
  pose proof (filter_first
                (fun tool => py_in (lower (name tool)) (lower tool_selection)) tools) as F.
  fold (_match_tools tools tool_selection) in F. rewrite H in F.
  destruct F as (before & after & -> & Hm & Hb).
  exists before, after. split; [reflexivity|].
  apply Forall_impl with (2 := Hb). intros t Ht E. rewrite E in Ht. congruence.
Qed.

Lemma catalog_is_ordered_list_first_entry_wins_witness :
  _match_tools (two_tools env_triggers) "Get Triggers, or else Get Hosts"
  = mkTool "Get Hosts" (get_hosts env_triggers) "Retrieve a list of hosts."
    :: [mkTool "Get Triggers" (get_triggers env_triggers)
          "Retrieve triggers with optional limit and severity filtering."]
  /\ List.length (initialize_zabbix_tools env_triggers) = 41%nat.
Proof.
  split; [reflexivity|].
  exact (proj1 (catalog_is_ordered_list_first_entry_wins env_triggers
                  (two_tools env_triggers) "Get Triggers, or else Get Hosts"
                  _ _ eq_refl)).
Defined.

(** ** Failure of the classification call *)

(** C9, as the claim states it, fails: when the classification call raises
    the turn answers with the fixed error text, not with what the generic
    route produces on the same window. *)
Lemma classification_failure_is_not_generic :
  _select_tool env_selection_fails (initialize_zabbix_tools env_selection_fails)
    [HumanMessage "hello"]
  = Raise (OtherError "rate limit exceeded")
  /\ _default_response env_selection_fails [HumanMessage "hello"]
     = Ok [AIMessage "Hello! How can I help you today?"]
  /\ assistant_turn env_selection_fails (mkState [HumanMessage "hello"] "English")
     = Ok [AIMessage "I encountered an unexpected error processing your request."].
Proof. repeat split; reflexivity. Qed.

(** C9, amended. When the language-model call used for tool classification
    fails, the handler at the top of the turn catches the failure and the
    turn produces exactly one assistant message, the fixed text
    "I encountered an unexpected error processing your request."; the
    generic route is not taken. *)
Theorem classification_failure_yields_error_message
    (env : Env) (tools : list Tool) (state : State)
    (trimmed : list Message) (m : Message) (e : exc) :
  _trim_conversation_messages env (messages state) 3000 = Ok trimmed ->
  last_item trimmed = Ok m ->
  _select_tool env tools trimmed = Raise e ->
  chatbot_agent env tools state
  = Ok [AIMessage "I encountered an unexpected error processing your request."].
Proof.
  intros Ht Hl Hs. unfold chatbot_agent.
  rewrite Ht. cbn [bind]. rewrite Hl. cbn [bind]. rewrite Hs. reflexivity.
Qed.

Lemma classification_failure_yields_error_message_witness :
  _trim_conversation_messages env_selection_fails
    (messages (mkState [HumanMessage "hello"] "English")) 3000
  = Ok [HumanMessage "hello"]
  /\ last_item [HumanMessage "hello"] = Ok (HumanMessage "hello")
  /\ _select_tool env_selection_fails (initialize_zabbix_tools env_selection_fails)
       [HumanMessage "hello"]
     = Raise (OtherError "rate limit exceeded")
  /\ chatbot_agent env_selection_fails (initialize_zabbix_tools env_selection_fails)
       (mkState [HumanMessage "hello"] "English")
     = Ok [AIMessage "I encountered an unexpected error processing your request."].
Proof.
  split; [reflexivity|]. split; [reflexivity|]. split; [reflexivity|].
  exact (classification_failure_yields_error_message env_selection_fails
           (initialize_zabbix_tools env_selection_fails)
           (mkState [HumanMessage "hello"] "English")
           [HumanMessage "hello"] (HumanMessage "hello")
           (OtherError "rate limit exceeded") eq_refl eq_refl eq_refl).
Defined.

(** ** Running a tool *)

Lemma fill_params_type_error fname sig kw e :
  fill_params fname sig kw = Raise e -> exists msg, e = TypeError msg.
Proof.
  induction sig as [|[p d] sig IH]; cbn [fill_params]; [discriminate|].
  destruct (kw_get kw p) as [v|]; [|destruct d as [v|]]; cbn [bind].
  - destruct (fill_params fname sig kw); cbn [bind]; [discriminate|].
    intros [= <-]. now apply IH.
  - destruct (fill_params fname sig kw); cbn [bind]; [discriminate|].
    intros [= <-]. now apply IH.
  - intros [= <-]. eauto.
Qed.

Lemma bind_params_type_error fname sig kw e :
  bind_params fname sig kw = Raise e -> exists msg, e = TypeError msg.
Proof.
  unfold bind_params. destruct (unexpected_keyword sig kw).
  - intros [= <-]. eauto.
  - apply fill_params_type_error.
Qed.

(** The local function [get_triggers] of the catalog hands the keyword
    [limit] to a method that has no such parameter: every call raises. *)
Lemma get_triggers_always_raises (env : Env) (kw : kwargs) :
  exists msg, get_triggers env kw = Raise (TypeError msg).
Proof.
  unfold get_triggers.
  destruct (bind_params "get_triggers" _ kw) as [a|e] eqn:E; cbn [bind].
  - eexists. reflexivity.
  - apply bind_params_type_error in E as [msg ->]. eauto.
Qed.

(** The method [get_triggers] itself, called with its own parameter names:
    up to 50 triggers come back as one page with the footer of page 1 of 1. *)
Lemma get_triggers_method_one_page
    (env : Env) (z : ZabbixAPI) (triggers : list Dict) (body : string)
    (severity : list string) :
  zabbix env = Some z ->
  (forall params, trigger_get z params = Ok triggers) ->
  (1 <= List.length triggers <= 50)%nat ->
  ZabbixToolFunctions._trigger_formatter env triggers = Ok body ->
  ZabbixToolFunctions.get_triggers env [("severity_filter", VStrList severity)]
  = Ok (body +++ nl +++ nl +++ "Page 1 of 1 (Total Items: "
        +++ str_int (Z.of_nat (List.length triggers)) +++ ")").
Proof.
  intros Hz Hget Hlen Hfmt. unfold ZabbixToolFunctions.get_triggers.
  cbn [bind_params unexpected_keyword has_param existsb fst String.eqb Ascii.eqb
       Bool.eqb orb fill_params kw_get bind arg].
  assert (P : ZabbixToolFunctions._paginate_and_format triggers 1 50
                (ZabbixToolFunctions._trigger_formatter env)
              = Ok (body +++ nl +++ nl +++ "Page 1 of 1 (Total Items: "
                    +++ str_int (Z.of_nat (List.length triggers)) +++ ")")).
  { unfold ZabbixToolFunctions._paginate_and_format.
    rewrite paginate_response_unfold by lia.
    assert (S : ZabbixDataHandler.paginated_data triggers 1 50 = triggers).
    { unfold ZabbixDataHandler.paginated_data.
      rewrite py_slice_nonneg by lia. cbn [skipn Z.to_nat Z.mul Z.sub Z.add Z.opp Z.pos_sub].
      apply firstn_all2. simpl. lia. }
    rewrite S, Hfmt. cbn [bind ZabbixDataHandler.content
      ZabbixDataHandler.current_page ZabbixDataHandler.total_pages
      ZabbixDataHandler.total_items].
    replace ((Z.of_nat (List.length triggers) + 50 - 1) / 50) with 1
      by (apply Z.div_unique with (r := Z.of_nat (List.length triggers) - 1); lia).
    reflexivity. }
  unfold ZabbixToolFunctions.client. rewrite Hz.
  destruct severity as [|s severity]; cbn [truthy as_str_list bind try_except as_int];
    rewrite Hget; cbn [bind as_int]; rewrite P; reflexivity.
Qed.

(** The text of such a page ends with the footer. *)
Lemma get_triggers_method_footer
    (env : Env) (z : ZabbixAPI) (triggers : list Dict) (body : string)
    (severity : list string) :
  zabbix env = Some z ->
  (forall params, trigger_get z params = Ok triggers) ->
  (1 <= List.length triggers <= 50)%nat ->
  ZabbixToolFunctions._trigger_formatter env triggers = Ok body ->
  exists text,
    ZabbixToolFunctions.get_triggers env [("severity_filter", VStrList severity)]
    = Ok text
    /\ endswith text
         ("Page 1 of 1 (Total Items: "
          +++ str_int (Z.of_nat (List.length triggers)) +++ ")") = true.
Proof.
  intros Hz Hget Hlen Hfmt.
  rewrite (get_triggers_method_one_page env z triggers body severity Hz Hget Hlen Hfmt).
  eexists. split; [reflexivity|].
  rewrite <- (append_assoc body nl), <- (append_assoc (body +++ nl) nl).
  apply endswith_append.
Qed.

Lemma match_get_triggers (env : Env) :
  _match_tools (initialize_zabbix_tools env) "Get Triggers"
  = [mkTool "Get Triggers" (get_triggers env)
       "Retrieve triggers with optional limit and severity filtering."].
Proof. reflexivity. Qed.

(** C1, on the code. For the query "disaster triggers" the severity
    extractor yields ["disaster"], and a classifier response that selects
    "Get Triggers" makes the turn run that tool; but the tool's function
    passes a keyword [limit] that the method [get_triggers] does not take,
    the call raises [TypeError] before any request is sent, and the turn
    ends with the fixed error text instead of an interpretation of a page of
    triggers. *)
Theorem disaster_triggers_turn_ends_in_error_text
    (env : Env) (state : State) (trimmed : list Message) (m : Message)
    (tool_selection : string) (others : list Tool) :
  _trim_conversation_messages env (messages state) 3000 = Ok trimmed ->
  last_item trimmed = Ok m ->
  content m = "disaster triggers" ->
  _select_tool env (initialize_zabbix_tools env) trimmed = Ok tool_selection ->
  _match_tools (initialize_zabbix_tools env) tool_selection
  = mkTool "Get Triggers" (get_triggers env)
      "Retrieve triggers with optional limit and severity filtering." :: others ->
  _extract_severity (content m) = Some ["disaster"]
  /\ (exists msg,
        _run_tool (mkTool "Get Triggers" (get_triggers env)
                     "Retrieve triggers with optional limit and severity filtering.")
          (content m)
        = Raise (TypeError msg))
  /\ assistant_turn env state
     = Ok [AIMessage "I encountered an unexpected error processing your request."].
Proof.
  intros Ht Hl Hq Hs Hm. rewrite Hq.
  assert (R : exists msg,
             _run_tool (mkTool "Get Triggers" (get_triggers env)
                          "Retrieve triggers with optional limit and severity filtering.")
               "disaster triggers" = Raise (TypeError msg)).
  { unfold _run_tool. cbn [name func String.eqb Ascii.eqb Bool.eqb].
    destruct (extract_limit_returns "disaster triggers") as [limit ->].
    cbn [bind]. apply get_triggers_always_raises. }
  split; [reflexivity|]. split; [exact R|].
  unfold assistant_turn.
  rewrite (chatbot_agent_selected _ _ _ _ _ _ Ht Hl Hs), Hm, Hq.
  unfold tool_turn_reply. destruct R as [msg ->]. reflexivity.
Qed.

Lemma disaster_triggers_turn_ends_in_error_text_witness :
  _trim_conversation_messages env_triggers
    (messages (mkState [HumanMessage "disaster triggers"] "English")) 3000
  = Ok [HumanMessage "disaster triggers"]
  /\ last_item [HumanMessage "disaster triggers"] = Ok (HumanMessage "disaster triggers")
  /\ content (HumanMessage "disaster triggers") = "disaster triggers"
  /\ _select_tool env_triggers (initialize_zabbix_tools env_triggers)
       [HumanMessage "disaster triggers"]
     = Ok "Get Triggers is the best match"
  /\ _match_tools (initialize_zabbix_tools env_triggers) "Get Triggers is the best match"
     = mkTool "Get Triggers" (get_triggers env_triggers)
         "Retrieve triggers with optional limit and severity filtering." :: []
  /\ assistant_turn env_triggers (mkState [HumanMessage "disaster triggers"] "English")
     = Ok [AIMessage "I encountered an unexpected error processing your request."].
Proof.
  do 5 (split; [reflexivity|]).
  exact (proj2 (proj2
    (disaster_triggers_turn_ends_in_error_text env_triggers
       (mkState [HumanMessage "disaster triggers"] "English")
       [HumanMessage "disaster triggers"] (HumanMessage "disaster triggers")
       "Get Triggers is the best match" [] eq_refl eq_refl eq_refl eq_refl eq_refl))).
Defined.

(** ** A failing API call *)


(** One run of the graph on a window that is not empty appends the user
    message and exactly one assistant message to the thread. *)
Lemma workflow_stream_appends_reply (env : Env) (tools : list Tool)
    (checkpoint : list Message) (user_input : string)
    (trimmed : list Message) (m : Message) :
  _trim_conversation_messages env (checkpoint ++ [HumanMessage user_input]) 3000
  = Ok trimmed ->
  last_item trimmed = Ok m ->
  exists reply,
    chatbot_agent env tools (mkState (checkpoint ++ [HumanMessage user_input]) "English")
    = Ok [AIMessage reply]
    /\ workflow_stream env tools checkpoint [HumanMessage user_input]
       = (checkpoint ++ [HumanMessage user_input; AIMessage reply],
          Ok [AIMessage reply]).
Proof.
  intros Ht Hl.
  destruct (chatbot_agent_replies env tools
              (mkState (checkpoint ++ [HumanMessage user_input]) "English")
              trimmed m Ht Hl) as [reply Hr].
  exists reply. split; [exact Hr|].
  unfold workflow_stream, add_messages. rewrite Hr.
  now rewrite <- app_assoc.
Qed.

(** [interact] hands the text of that assistant message back to its caller. *)
Lemma interact_returns_reply (env : Env) (tools : list Tool)
    (c : ascii) (model : string) (checkpoint : list Message)
    (user_input reply : string) :
  workflow_stream env tools checkpoint [HumanMessage user_input]
  = (checkpoint ++ [HumanMessage user_input; AIMessage reply], Ok [AIMessage reply]) ->
  interact env tools (Some (String c model)) checkpoint user_input
  = (checkpoint ++ [HumanMessage user_input; AIMessage reply], Some reply).
Proof. intros W. unfold interact. rewrite W. reflexivity. Qed.




(** ** Worked examples *)

Example slice_middle : py_slice [1; 2; 3; 4; 5] (Some 2) (Some 4) = [3; 4].
Proof. reflexivity. Qed.

Example slice_last_five_of_seven :
  py_slice [1; 2; 3; 4; 5; 6; 7] (Some (-5)) None = [3; 4; 5; 6; 7].
Proof. reflexivity. Qed.

Example slice_last_five_of_three : py_slice [1; 2; 3] (Some (-5)) None = [1; 2; 3].
Proof. reflexivity. Qed.

(** A page beyond the last one is empty, not an error. *)
Example page_out_of_range :
  ZabbixDataHandler.paginate_response str_int [7; 8; 9] 4 2 None
  = Ok (ZabbixDataHandler.mkPage EmptyString 3 2 4 2).
Proof. reflexivity. Qed.

Example limit_after_other_numbers : _extract_limit "12 34   HOSTs" = Ok (Some 34).
Proof. vm_compute. reflexivity. Qed.

Example limit_leading_zeros :
  _extract_limit "in 2024 give 007items and 3 hosts" = Ok (Some 7).
Proof. vm_compute. reflexivity. Qed.

Example limit_needs_noun : _extract_limit "top 10 alerts" = Ok None.
Proof. vm_compute. reflexivity. Qed.

Example severity_vocabulary_order :
  _extract_severity "HIGH or Not Classified?" = Some ["not_classified"].
Proof. vm_compute. reflexivity. Qed.

Example int_with_sign_and_underscore : py_int " -1_000 " = Ok (-1000).
Proof. reflexivity. Qed.

Example int_rejects_double_underscore :
  py_int "1__0" = Raise (ValueError "invalid literal for int() with base 10: '1__0'").
Proof. reflexivity. Qed.

(** A turn on "show me 1 hosts": page size 1, first of two pages. *)
Example hosts_turn_with_limit :
  assistant_turn (env_echo "Get Hosts") (mkState [HumanMessage "show me 1 hosts"] "English")
  = Ok [AIMessage
          ("Host: web-server-01 (ID: 10001, Status: Enabled)" +++ nl
           +++ "  Hostname: web01" +++ nl
           +++ "  Description: Front end" +++ nl +++ nl
           +++ "Page 1 of 2 (Total Items: 2)")].
Proof. vm_compute. reflexivity. Qed.

(** A limit of 0 is replaced by the default page size of 50. *)
Example hosts_turn_limit_zero :
  assistant_turn (env_echo "Get Hosts") (mkState [HumanMessage "0 hosts"] "English")
  = Ok [AIMessage
          ("Host: web-server-01 (ID: 10001, Status: Enabled)" +++ nl
           +++ "  Hostname: web01" +++ nl
           +++ "  Description: Front end" +++ nl +++ nl
           +++ "Host: database-server-02 (ID: 10002, Status: Disabled)" +++ nl
           +++ "  Hostname: N/A" +++ nl
           +++ "  Description: No description" +++ nl +++ nl
           +++ "Page 1 of 1 (Total Items: 2)")].
Proof. vm_compute. reflexivity. Qed.

(** The method [get_hosts] asked for page size 0 reports the division error. *)
Example get_hosts_page_size_zero :
  ZabbixToolFunctions.get_hosts (env_echo "Get Hosts") [("page_size", VInt 0)]
  = Ok "Error retrieving hosts: integer division or modulo by zero".
Proof. vm_compute. reflexivity. Qed.

(** Without a client every request fails on the attribute access. *)
Example get_hosts_without_client :
  get_hosts env_trim_fails []
  = Ok "Error retrieving hosts: 'NoneType' object has no attribute 'host'".
Proof. vm_compute. reflexivity. Qed.

(** The method [get_triggers] called with its own parameter names. *)
Example get_triggers_method_page :
  ZabbixToolFunctions.get_triggers (env_echo "Get Triggers")
    [("severity_filter", VStrList ["disaster"])]
  = Ok ("Trigger: Memory Leak Detected" +++ nl
        +++ "  ID: 20002" +++ nl
        +++ "  Priority: Disaster" +++ nl
        +++ "  Status: Enabled" +++ nl
        +++ "  Current State: Problem" +++ nl
        +++ "  Last Changed: 2024-01-01 00:00:00" +++ nl +++ nl
        +++ "Page 1 of 1 (Total Items: 1)").
Proof. vm_compute. reflexivity. Qed.

(** The same request through the catalog's function never reaches it. *)
Example get_triggers_tool_call :
  get_triggers (env_echo "Get Triggers")
    [("limit", VNone); ("severity", VStrList ["disaster"])]
  = Raise (TypeError "get_triggers() got an unexpected keyword argument 'limit'").
Proof. vm_compute. reflexivity. Qed.

(** Tools whose function needs an argument cannot be run by a turn, and
    three functions name a method the class does not define. *)
Example graph_data_tool_call :
  get_graph_data (env_echo "Get Graph Data") []
  = Raise (TypeError "get_graph_data() missing 1 required positional argument: 'graph_id'").
Proof. vm_compute. reflexivity. Qed.

Example event_history_tool_call :
  get_event_history []
  = Raise (AttributeError "'ZabbixToolFunctions' object has no attribute 'get_event_history'").
Proof. vm_compute. reflexivity. Qed.

(** A response naming "Get Hosts Limit" also contains "Get Hosts", which is
    registered first. *)
Example hosts_limit_selects_hosts :
  option_map name (hd_error (_match_tools (initialize_zabbix_tools (env_echo "Get Hosts Limit"))
                               "Get Hosts Limit"))
  = Some "Get Hosts".
Proof. vm_compute. reflexivity. Qed.

(** A classifier answering GENERAL sends the turn down the generic path. *)
Example general_turn :
  assistant_turn (env_echo "GENERAL") (mkState [HumanMessage "hello"] "English")
  = Ok [AIMessage "Hi"].
Proof. vm_compute. reflexivity. Qed.

(** An empty window makes the node raise; [interact] reports it. *)
Example empty_window :
  interact (mk_env None (echo_llm "GENERAL") (fun _ _ => Ok []))
    (initialize_zabbix_tools (mk_env None (echo_llm "GENERAL") (fun _ _ => Ok [])))
    (Some "gpt-3.5-turbo") [] "hello"
  = ([HumanMessage "hello"], Some "An error occurred: list index out of range").
Proof. vm_compute. reflexivity. Qed.

(** * Further properties *)

(** ** Pages of [paginate_response] *)

Section PageFacts.

Import ZabbixDataHandler.

Context {A : Type}.

Lemma paginated_data_firstn_skipn (data : list A) (page p : Z) :
  1 <= p -> 1 <= page ->
  paginated_data data page p
  = firstn (Z.to_nat p) (skipn (Z.to_nat ((page - 1) * p)) data).
Proof.
  intros Hp Hpage. unfold paginated_data.
  rewrite py_slice_nonneg by nia. do 2 f_equal. lia.
Qed.


End PageFacts.



(** X2. For a page size [p >= 1] every page from 1 to [total_pages] holds
    between 1 and [p] items: exactly [p] on every page before the last, and
    the remaining [n - (total_pages - 1) * p] on the last one. *)
Theorem paginated_data_length
    (A : Type) (data : list A) (page p : Z) :
  1 <= p ->
  1 <= page <= (Z.of_nat (List.length data) + p - 1) / p ->
  let n := Z.of_nat (List.length data) in
  let items := Z.of_nat (List.length (ZabbixDataHandler.paginated_data data page p)) in
  1 <= items <= p
  /\ items = Z.min p (n - (page - 1) * p)
  /\ (page < (n + p - 1) / p -> items = p).
Proof.
  intros Hp Hpage. cbv zeta.
  set (n := Z.of_nat (List.length data)) in *.
  set (tp := (n + p - 1) / p) in *.
  pose proof (total_pages_is_ceiling n p ltac:(subst n; lia) Hp) as C.
  fold tp in C.
  assert (B : (page - 1) * p <= (tp - 1) * p)
    by (apply Z.mul_le_mono_nonneg_r; lia).
  assert (B0 : 0 <= (page - 1) * p) by (apply Z.mul_nonneg_nonneg; lia).
  assert (B' : page < tp -> page * p <= (tp - 1) * p)
    by (intros H; apply Z.mul_le_mono_nonneg_r; lia).
  assert (L : Z.of_nat (List.length (ZabbixDataHandler.paginated_data data page p))
              = Z.min p (n - (page - 1) * p)).
  { rewrite paginated_data_firstn_skipn by lia.
    rewrite length_firstn, length_skipn.
    assert (B1 : (page - 1) * p < n) by lia.
    clear C B B' Hpage. subst n. generalize dependent ((page - 1) * p).
    intros; lia. }
  rewrite L.
  split; [|split]; [lia | reflexivity | intros H; specialize (B' H); lia].
Qed.

Lemma paginated_data_length_witness :
  1 <= 2
  /\ 1 <= 3 <= (Z.of_nat (List.length [10; 20; 30; 40; 50]) + 2 - 1) / 2
  /\ Z.of_nat (List.length (ZabbixDataHandler.paginated_data [10; 20; 30; 40; 50] 3 2))
     = Z.min 2 (Z.of_nat (List.length [10; 20; 30; 40; 50]) - (3 - 1) * 2).
Proof.
  assert (H : 1 <= 3 <= (Z.of_nat (List.length [10; 20; 30; 40; 50]) + 2 - 1) / 2)
    by (vm_compute; split; discriminate).
  split; [lia|]. split; [exact H|].
  exact (proj1 (proj2 (paginated_data_length Z [10; 20; 30; 40; 50] 3 2 ltac:(lia) H))).
Defined.

(** X3. Item [j] of page [page] is item [(page - 1) * p + j] of the data:
    for a page size [p >= 1] and a page [>= 1], positions [0..p-1] of the
    slice read the data at that offset, and no position beyond [p - 1]
    exists. *)
Theorem paginated_data_nth_error
    (A : Type) (data : list A) (page p : Z) (j : nat) :
  1 <= p -> 1 <= page ->
  nth_error (ZabbixDataHandler.paginated_data data page p) j
  = if (Z.of_nat j <? p)
    then nth_error data (Z.to_nat ((page - 1) * p + Z.of_nat j))
    else None.
Proof.
  intros Hp Hpage.
  rewrite paginated_data_firstn_skipn by lia.
  rewrite nth_error_firstn, nth_error_skipn.
  assert (0 <= (page - 1) * p) by (apply Z.mul_nonneg_nonneg; lia).
  destruct (Z.ltb_spec (Z.of_nat j) p) as [Hj|Hj].
  - replace (j <? Z.to_nat p)%nat with true
      by (symmetry; apply Nat.ltb_lt; lia).
    f_equal. lia.
  - replace (j <? Z.to_nat p)%nat with false
      by (symmetry; apply Nat.ltb_ge; lia).
    reflexivity.
Qed.

Lemma paginated_data_nth_error_witness :
  1 <= 2 /\ 1 <= 2
  /\ nth_error (ZabbixDataHandler.paginated_data [10; 20; 30; 40; 50] 2 2) 1
     = if (Z.of_nat 1 <? 2)
       then nth_error [10; 20; 30; 40; 50] (Z.to_nat ((2 - 1) * 2 + Z.of_nat 1))
       else None.
Proof.
  split; [lia|]. split; [lia|].
  exact (paginated_data_nth_error Z [10; 20; 30; 40; 50] 2 2 1 ltac:(lia) ltac:(lia)).
Defined.

(** X4. The footer of [_paginate_and_format] agrees with the data. For a
    page size [p >= 1], if the formatter returns [body] on the slice of the
    page, the text is [body], two line breaks and
    "Page <page> of <k> (Total Items: <n>)", where [n] is the number of
    records and [k] the least number of pages of [p] items that hold them;
    if the formatter raises, so does the call, with the same exception. *)
Theorem paginate_and_format_footer
    (data : list Dict) (page p : Z) (formatter : list Dict -> result string) :
  1 <= p ->
  let n := Z.of_nat (List.length data) in
  exists k : Z,
    ((k - 1) * p < n <= k * p)
    /\ match formatter (ZabbixDataHandler.paginated_data data page p) with
       | Ok body =>
           ZabbixToolFunctions._paginate_and_format data page p formatter
           = Ok (body +++ nl +++ nl +++ "Page " +++ str_int page +++ " of "
                 +++ str_int k +++ " (Total Items: " +++ str_int n +++ ")")
           /\ forall text,
                ZabbixToolFunctions._paginate_and_format data page p formatter = Ok text ->
                endswith text
                  ("Page " +++ str_int page +++ " of " +++ str_int k
                   +++ " (Total Items: " +++ str_int n +++ ")") = true
       | Raise e =>
           ZabbixToolFunctions._paginate_and_format data page p formatter = Raise e
       end.
Proof.
  intros Hp n. exists ((n + p - 1) / p).
  split; [apply total_pages_is_ceiling; subst n; lia|].
  unfold ZabbixToolFunctions._paginate_and_format.
  rewrite paginate_response_unfold by lia.
  destruct (formatter _) as [body|e]; cbn [bind]; [|reflexivity].
  cbn [ZabbixDataHandler.content ZabbixDataHandler.current_page
       ZabbixDataHandler.total_pages ZabbixDataHandler.total_items].
  fold n. split; [reflexivity|].
  assert (F : endswith
                (body +++ nl +++ nl +++ "Page " +++ str_int page +++ " of "
                 +++ str_int ((n + p - 1) / p) +++ " (Total Items: "
                 +++ str_int n +++ ")")
                ("Page " +++ str_int page +++ " of " +++ str_int ((n + p - 1) / p)
                 +++ " (Total Items: " +++ str_int n +++ ")") = true).
  { rewrite <- (append_assoc body nl), <- (append_assoc (body +++ nl) nl).
    apply endswith_append. }
  intros text H. injection H as H. rewrite <- H. exact F.
Qed.

Lemma paginate_and_format_footer_witness :
  1 <= 1
  /\ exists k : Z,
       ((k - 1) * 1 < Z.of_nat (List.length sample_hosts) <= k * 1)
       /\ ZabbixToolFunctions._paginate_and_format sample_hosts 2 1
            (fun x => ZabbixToolFunctions._host_formatter x false)
          = Ok ("Host: database-server-02 (ID: 10002, Status: Disabled)"
                +++ nl +++ nl +++ "Page " +++ str_int 2 +++ " of " +++ str_int k
                +++ " (Total Items: "
                +++ str_int (Z.of_nat (List.length sample_hosts)) +++ ")").
Proof.
  split; [lia|].
  destruct (paginate_and_format_footer sample_hosts 2 1
              (fun x => ZabbixToolFunctions._host_formatter x false) ltac:(lia))
    as (k & Hk & H).
  exists k. split; [exact Hk|]. exact (proj1 H).
Defined.

(** ** Formatting hosts *)

Lemma mapM_ok_iff {A B : Type} (f : A -> result B) (l : list A) :
  (exists ys, mapM f l = Ok ys) <-> Forall (fun x => exists y, f x = Ok y) l.
Proof.
  induction l as [|x l IH]; cbn [mapM].
  - split; [constructor | eauto].
  - split.
    + intros [ys H]. destruct (f x) as [y|e] eqn:E; cbn [bind] in H; [|discriminate].
      constructor; [eauto|]. apply IH.
      destruct (mapM f l); cbn [bind] in H; [eauto | discriminate].
    + intros H. inversion H as [|? ? [y Hy] Hl]; subst.
      apply IH in Hl as [ys Hys]. rewrite Hy, Hys. cbn. eauto.
Qed.

(** A failing [mapM] fails at its first failing element. *)
Lemma mapM_raise {A B : Type} (f : A -> result B) (l : list A) (e : exc) :
  mapM f l = Raise e ->
  exists before x after,
    l = before ++ x :: after
    /\ Forall (fun x => exists y, f x = Ok y) before
    /\ f x = Raise e.
Proof.
  induction l as [|x l IH]; cbn [mapM]; [discriminate|].
  destruct (f x) as [y|e'] eqn:E; cbn [bind].
  - destruct (mapM f l) as [ys|e''] eqn:M; cbn [bind]; [discriminate|].
    intros [= <-]. destruct (IH eq_refl) as (before & x' & after & -> & Hb & Hx).
    exists (x :: before), x', after. repeat split; eauto.
  - intros [= <-]. exists [], x, l. repeat split; auto.
Qed.

Lemma format_host_ok (b : bool) (h : Dict) :
  (exists s, ZabbixToolFunctions.format_host b h = Ok s)
  <-> has_keys ["status"; "name"; "hostid"] h = true.
Proof.
  unfold ZabbixToolFunctions.format_host, has_keys, getitem. cbn [forallb].
  destruct (dict_get h "status"); cbn [bind andb];
    [|split; [intros [x H]; discriminate | discriminate]].
  destruct (dict_get h "name"); cbn [bind andb];
    [|split; [intros [x H]; discriminate | discriminate]].
  destruct (dict_get h "hostid"); cbn [bind andb];
    [|split; [intros [x H]; discriminate | discriminate]].
  split; eauto.
Qed.

Lemma format_host_raise (b : bool) (h : Dict) (e : exc) :
  ZabbixToolFunctions.format_host b h = Raise e ->
  exists k, e = KeyError k /\ In k ["status"; "name"; "hostid"]
            /\ dict_get h k = None.
Proof.
  unfold ZabbixToolFunctions.format_host, getitem.
  destruct (dict_get h "status") eqn:E1; cbn [bind];
    [|intros [= <-]; exists "status"; repeat split; cbn; auto].
  destruct (dict_get h "name") eqn:E2; cbn [bind];
    [|intros [= <-]; exists "name"; repeat split; cbn; auto].
  destruct (dict_get h "hostid") eqn:E3; cbn [bind];
    [intros H; discriminate H
    |intros [= <-]; exists "hostid"; repeat split; cbn; auto].
Qed.

Lemma hosts_complete_forall (b : bool) (hosts : list Dict) :
  Forall (fun h => exists s, ZabbixToolFunctions.format_host b h = Ok s) hosts
  <-> forallb (has_keys ["status"; "name"; "hostid"]) hosts = true.
Proof.
  rewrite forallb_forall, Forall_forall.
  split; intros H h Hin.
  - apply (proj1 (format_host_ok b h)), H, Hin.
  - apply (proj2 (format_host_ok b h)), H, Hin.
Qed.

(** X5. [_host_formatter] succeeds exactly when every host of the list has
    the keys [status], [name] and [hostid] ([host] and [description] are
    optional). When it fails, the exception is the [KeyError] of a missing
    one of these keys at the first incomplete host. *)
Theorem host_formatter_needs_three_keys (hosts : list Dict) (include_details : bool) :
  ((exists body, ZabbixToolFunctions._host_formatter hosts include_details = Ok body)
   <-> forallb (has_keys ["status"; "name"; "hostid"]) hosts = true)
  /\ (forall e,
        ZabbixToolFunctions._host_formatter hosts include_details = Raise e ->
        exists before h after k,
          hosts = before ++ h :: after
          /\ forallb (has_keys ["status"; "name"; "hostid"]) before = true
          /\ e = KeyError k
          /\ In k ["status"; "name"; "hostid"]
          /\ dict_get h k = None).
Proof.
  unfold ZabbixToolFunctions._host_formatter. split.
  - rewrite <- (hosts_complete_forall include_details), <- mapM_ok_iff.
    destruct (mapM _ hosts) as [ys|e]; cbn [bind].
    + split; eauto.
    + split; intros [x H]; discriminate H.
  - intros e.
    destruct (mapM _ hosts) as [ys|e'] eqn:M; cbn [bind]; [discriminate|].
    intros [= <-]. apply mapM_raise in M as (before & h & after & -> & Hb & Hh).
    apply format_host_raise in Hh as (k & -> & Hk & Hn).
    exists before, h, after, k. repeat split; auto.
    now apply (hosts_complete_forall include_details).
Qed.

(** ** The limit is a natural number *)






(** ** The host tool *)




(** ** Severities *)

(** X7. Whatever severity [_extract_severity] returns, the method
    [get_triggers] translates it to the numeric priority of the word found:
    the word at position [k] of the vocabulary (0 for "not classified" up to
    5 for "disaster") becomes the filter value [k]. *)
Theorem extracted_severity_maps_to_priority (query : string) (severity : list string) :
  _extract_severity query = Some severity ->
  exists (k : nat) (word : string),
    (k <= 5)%nat
    /\ nth_error (map fst severity_map) k = Some word
    /\ py_in word (lower query) = true
    /\ map ZabbixToolFunctions.severity_code severity = [JInt (Z.of_nat k)].
Proof.
  unfold _extract_severity, severity_map. cbn [first_severity].
  destruct (py_in "not classified" (lower query)) eqn:E0;
    [intros [= <-]; exists 0%nat, "not classified"; repeat split; auto; lia|].
  destruct (py_in "information" (lower query)) eqn:E1;
    [intros [= <-]; exists 1%nat, "information"; repeat split; auto; lia|].
  destruct (py_in "warning" (lower query)) eqn:E2;
    [intros [= <-]; exists 2%nat, "warning"; repeat split; auto; lia|].
  destruct (py_in "average" (lower query)) eqn:E3;
    [intros [= <-]; exists 3%nat, "average"; repeat split; auto; lia|].
  destruct (py_in "high" (lower query)) eqn:E4;
    [intros [= <-]; exists 4%nat, "high"; repeat split; auto; lia|].
  destruct (py_in "disaster" (lower query)) eqn:E5;
    [intros [= <-]; exists 5%nat, "disaster"; repeat split; auto; lia|].
  discriminate.
Qed.

Lemma extracted_severity_maps_to_priority_witness :
  _extract_severity "Any NOT CLASSIFIED triggers?" = Some ["not_classified"]
  /\ exists (k : nat) (word : string),
       (k <= 5)%nat
       /\ nth_error (map fst severity_map) k = Some word
       /\ py_in word (lower "Any NOT CLASSIFIED triggers?") = true
       /\ map ZabbixToolFunctions.severity_code ["not_classified"]
          = [JInt (Z.of_nat k)].
Proof.
  split; [reflexivity|].
  exact (extracted_severity_maps_to_priority "Any NOT CLASSIFIED triggers?"
           ["not_classified"] eq_refl).
Defined.

(** ** The matcher against the words of a pattern *)









(** ** The words of the limit pattern *)












(** ** Which catalog entries a turn can reach *)

Lemma py_in_trans (a b s : string) :
  py_in a b = true -> py_in b s = true -> py_in a s = true.
Proof.
  intros Hab Hbs.
  apply py_in_spec in Hab as (x & y & ->).
  apply py_in_spec in Hbs as (u & v & ->).
  apply py_in_spec. exists (u +++ x), (y +++ v).
  now rewrite !append_assoc.
Qed.

Lemma py_in_super (a b s : string) :
  py_in a b = true -> py_in a s = false -> py_in b s = false.
Proof.
  intros Hab Has. destruct (py_in b s) eqn:E; [|reflexivity].
  rewrite (py_in_trans a b s Hab E) in Has. discriminate.
Qed.

Lemma filter_nil_forall {A : Type} (f : A -> bool) (l : list A) :
  Forall (fun x => f x = false) l -> filter f l = [].
Proof.
  induction 1 as [|x l Hx _ IH]; cbn [filter]; [reflexivity|]. now rewrite Hx.
Qed.

(** The head of a filtered list by position. *)
Lemma filter_head_index {A : Type} (f : A -> bool) (l : list A) (x : A) (rest : list A) :
  filter f l = x :: rest ->
  exists i,
    nth_error l i = Some x /\ f x = true
    /\ forall j y, (j < i)%nat -> nth_error l j = Some y -> f y = false.
Proof.
  intros H. pose proof (filter_first f l) as F. rewrite H in F.
  destruct F as (before & after & -> & Hx & Hb).
  exists (List.length before). split; [|split; [exact Hx|]].
  - rewrite nth_error_app2 by lia. now rewrite Nat.sub_diag.
  - intros j y Hj Hy. rewrite nth_error_app1 in Hy by exact Hj.
    rewrite Forall_forall in Hb. apply Hb. now apply nth_error_In in Hy.
Qed.

Lemma match_tools_filter (tools : list Tool) (tool_selection : string) :
  _match_tools tools tool_selection
  = filter (fun tool => py_in (lower (name tool)) (lower tool_selection)) tools.
Proof. reflexivity. Qed.

(** X10. A classifier response that does not contain "get " (in any case)
    matches no tool of the catalog, since every name starts with "Get ":
    such a turn takes the generic path. *)
Theorem response_without_get_matches_nothing (env : Env) (tool_selection : string) :
  py_in "get " (lower tool_selection) = false ->
  _match_tools (initialize_zabbix_tools env) tool_selection = [].
Proof.
  intros H. rewrite match_tools_filter. apply filter_nil_forall.
  unfold initialize_zabbix_tools.
  repeat (apply Forall_cons;
          [apply (py_in_super "get "); [reflexivity | exact H]|]).
  apply Forall_nil.
Qed.

Lemma response_without_get_matches_nothing_witness :
  py_in "get " (lower "GENERAL") = false
  /\ _match_tools (initialize_zabbix_tools env_trim_fails) "GENERAL" = [].
Proof.
  split; [reflexivity|].
  exact (response_without_get_matches_nothing env_trim_fails "GENERAL" eq_refl).
Defined.

(** Case analysis on a position in a list given in full. *)
Ltac split_index i H n :=
  lazymatch n with
  | O => idtac
  | S ?k =>
      destruct i as [|i];
      [cbn [nth_error] in H; injection H as <-; cbn [name description] in *
      |split_index i H k]
  end.

(** X11. Three entries of the catalog can never be the tool a turn runs,
    whatever the classifier answers: "Get Hosts Limit" and
    "Get Items by Host Group", because a response that contains their name
    also contains "Get Hosts" resp. "Get Items", registered before them, and
    the second "Get System Performance" entry (the one bound to
    [get_zabbix_status]), because the first entry of that name precedes it. *)
Theorem unreachable_catalog_entries
    (env : Env) (tool_selection : string) (matched_tool : Tool) (others : list Tool) :
  _match_tools (initialize_zabbix_tools env) tool_selection = matched_tool :: others ->
  name matched_tool <> "Get Hosts Limit"
  /\ name matched_tool <> "Get Items by Host Group"
  /\ description matched_tool
     <> "Retrieve system performance metrics like CPU load, memory, and disk usage.".
Proof.
  intros H. rewrite match_tools_filter in H.
  apply filter_head_index in H as (i & Hnth & Ht & Hfirst).
  unfold initialize_zabbix_tools in Hnth.
  split_index i Hnth 41%nat.
  42: { exfalso. cbn [nth_error] in Hnth. destruct i; discriminate Hnth. }
  all: split; [|split]; try (intros D; discriminate D); intros _.
  - pose proof (Hfirst 0%nat _ ltac:(lia) eq_refl) as F0. cbn [name] in F0.
    rewrite (py_in_trans (lower "Get Hosts") (lower "Get Hosts Limit")
               (lower tool_selection) eq_refl Ht) in F0.
    discriminate.
  - pose proof (Hfirst 2%nat _ ltac:(lia) eq_refl) as F2. cbn [name] in F2.
    rewrite (py_in_trans (lower "Get Items") (lower "Get Items by Host Group")
               (lower tool_selection) eq_refl Ht) in F2.
    discriminate.
  - pose proof (Hfirst 13%nat _ ltac:(lia) eq_refl) as F13. cbn [name] in F13.
    rewrite Ht in F13. discriminate.
Qed.

Lemma unreachable_catalog_entries_witness :
  _match_tools (initialize_zabbix_tools env_trim_fails) "Get Hosts Limit"
  = [ mkTool "Get Hosts" (get_hosts env_trim_fails) "Retrieve a list of hosts.";
      mkTool "Get Hosts Limit" get_hosts_limit
        "Retrieve a limited number of hosts with pagination." ]
  /\ name (mkTool "Get Hosts" (get_hosts env_trim_fails) "Retrieve a list of hosts.")
     <> "Get Hosts Limit".
Proof.
  assert (H : _match_tools (initialize_zabbix_tools env_trim_fails) "Get Hosts Limit"
              = [ mkTool "Get Hosts" (get_hosts env_trim_fails) "Retrieve a list of hosts.";
                  mkTool "Get Hosts Limit" get_hosts_limit
                    "Retrieve a limited number of hosts with pagination." ])
    by reflexivity.
  split; [exact H|].
  exact (proj1 (unreachable_catalog_entries env_trim_fails "Get Hosts Limit"
                  (mkTool "Get Hosts" (get_hosts env_trim_fails) "Retrieve a list of hosts.")
                  [mkTool "Get Hosts Limit" get_hosts_limit
                     "Retrieve a limited number of hosts with pagination."] H)).
Defined.
Lemma run_get_triggers_raises (env : Env) (descr user_query : string) :
  exists e, _run_tool (mkTool "Get Triggers" (get_triggers env) descr) user_query
            = Raise e.
Proof.
  unfold _run_tool. cbn [name func String.eqb Ascii.eqb Bool.eqb].
  destruct (extract_limit_returns user_query) as [limit ->]. cbn [bind].
  destruct (get_triggers_always_raises env
              [("limit", int_or_none limit);
               ("severity", list_or_none (_extract_severity user_query))])
    as [msg ->].
  eauto.
Qed.

(** X12. Sixteen of the 41 catalog entries cannot run: their function needs
    an argument the turn never passes, or names a method the class does not
    define, or (Get Triggers) passes a keyword the method does not take.
    Running one of them raises for every query, and a turn that selects it
    answers with the fixed error text. Every other entry except "Get Hosts"
    ignores the query: it calls its method without arguments. *)
Theorem catalog_entries_that_cannot_run
    (env : Env) (tool : Tool) (user_query : string) :
  In tool (initialize_zabbix_tools env) ->
  if existsb (String.eqb (name tool))
       [ "Get Hosts Limit"; "Get Triggers"; "Get Item by Key"; "Get Event History";
         "Get Graph Data"; "Get Trend Data"; "Get Metrics by Host"; "Get SLA Data";
         "Get Custom Item"; "Get Items by Host Group"; "Get Host by Name";
         "Get Trigger by Expression"; "Get Dependencies by Trigger";
         "Get Graphs by Host"; "Get Host Maintenance"; "Get Zabbix Task Status" ]
  then (exists e, _run_tool tool user_query = Raise e)
       /\ tool_turn_reply env tool user_query
          = "I encountered an unexpected error processing your request."
  else name tool = "Get Hosts"
       \/ exists method, _run_tool tool user_query = other_method env method [].
Proof.
  intros H. unfold initialize_zabbix_tools in H. cbn [In] in H.
  repeat (destruct H as [<-|H]; [|]); [..|contradiction];
    match goal with
    | |- context [existsb ?f ?l] =>
        let b := eval vm_compute in (existsb f l) in
        change (existsb f l) with b
    end; cbv iota.
  all: try (right; eexists; reflexivity).
  all: try (left; reflexivity).
  all: try (split; [eexists; reflexivity | reflexivity]).
  destruct (run_get_triggers_raises env
              "Retrieve triggers with optional limit and severity filtering."
              user_query) as [e He].
  split; [eauto|]. unfold tool_turn_reply. now rewrite He.
Qed.

Lemma catalog_entries_that_cannot_run_witness :
  In (mkTool "Get Graph Data" (get_graph_data env_trim_fails) "Get graph data.")
    (initialize_zabbix_tools env_trim_fails)
  /\ exists e,
       _run_tool (mkTool "Get Graph Data" (get_graph_data env_trim_fails) "Get graph data.")
         "show graph 7" = Raise e.
Proof.
  assert (H : In (mkTool "Get Graph Data" (get_graph_data env_trim_fails) "Get graph data.")
                (initialize_zabbix_tools env_trim_fails)).
  { unfold initialize_zabbix_tools. cbn [In]. do 15 right. left. reflexivity. }
  split; [exact H|].
  exact (proj1 (catalog_entries_that_cannot_run env_trim_fails _ "show graph 7" H)).
Defined.

(** ** Outcomes of a turn *)

Lemma last_item_app {A : Type} (l : list A) (x : A) : last_item (l ++ [x]) = Ok x.
Proof. unfold last_item. now rewrite rev_app_distr. Qed.

Lemma last_item_nonempty {A : Type} (l : list A) :
  l <> [] -> exists x, last_item l = Ok x.
Proof.
  intros H. destruct (exists_last H) as (l' & x & ->).
  exists x. apply last_item_app.
Qed.

Lemma trim_conversation_messages_returns (env : Env) (msgs : list Message) (max_tokens : Z) :
  exists window, _trim_conversation_messages env msgs max_tokens = Ok window.
Proof.
  unfold _trim_conversation_messages, try_except.
  destruct (trim_messages env max_tokens msgs); eauto.
Qed.

Lemma chatbot_agent_empty_window (env : Env) (tools : list Tool) (state : State) :
  _trim_conversation_messages env (messages state) 3000 = Ok [] ->
  chatbot_agent env tools state = Raise (IndexError "list index out of range").
Proof. intros H. unfold chatbot_agent. rewrite H. reflexivity. Qed.

(** The two outcomes of the node. *)
Lemma turn_raises_only_on_empty_window_aux (env : Env) (tools : list Tool) (state : State) :
  exists window,
    _trim_conversation_messages env (messages state) 3000 = Ok window
    /\ ((window = []
         /\ chatbot_agent env tools state
            = Raise (IndexError "list index out of range"))
        \/ (window <> []
            /\ exists reply, chatbot_agent env tools state = Ok [AIMessage reply])).
Proof.
  destruct (trim_conversation_messages_returns env (messages state) 3000) as [window Hw].
  exists window. split; [exact Hw|].
  destruct window as [|m0 window].
  - left. split; [reflexivity|]. now apply chatbot_agent_empty_window.
  - right. split; [discriminate|].
    destruct (last_item_nonempty (m0 :: window) ltac:(discriminate)) as [m Hm].
    exact (chatbot_agent_replies env tools state (m0 :: window) m Hw Hm).
Qed.

(** X13. A turn raises in one case only: when the trimmed window is empty,
    reading its last message raises [IndexError] before the handler of the
    turn is entered. With any other window the node returns exactly one
    assistant message, whatever the model, the client and the tools do. *)
Theorem turn_raises_only_on_empty_window (env : Env) (tools : list Tool) (state : State) :
  exists window,
    _trim_conversation_messages env (messages state) 3000 = Ok window
    /\ ((window = []
         /\ chatbot_agent env tools state
            = Raise (IndexError "list index out of range"))
        \/ (window <> []
            /\ exists reply, chatbot_agent env tools state = Ok [AIMessage reply])).
Proof. exact (turn_raises_only_on_empty_window_aux env tools state). Qed.

(** The tail kept by the fallback ends with the last message of the thread. *)
Lemma fallback_tail_last (msgs : list Message) (x : Message) :
  last_item (py_slice (msgs ++ [x]) (Some (-5)) None) = Ok x.
Proof.
  change (-5) with (- Z.of_nat 5). rewrite py_slice_tail.
  rewrite length_app. cbn [List.length].
  rewrite skipn_app.
  replace (List.length msgs + 1 - 5 - List.length msgs)%nat with 0%nat by lia.
  cbn [skipn]. apply last_item_app.
Qed.

(** X14. When the trimming step raises, the turn still answers and the
    query it works on is the user's input: the fallback window ends with the
    message just added, holds at most five messages, and the run appends
    that message and exactly one assistant message to the thread; if a tool
    is selected the reply is that of the tool run on the user's input. *)
Theorem trim_failure_turn_uses_latest_input
    (env : Env) (tools : list Tool) (checkpoint : list Message)
    (user_input : string) (e : exc) :
  trim_messages env 3000 (checkpoint ++ [HumanMessage user_input]) = Raise e ->
  exists window reply,
    _trim_conversation_messages env (checkpoint ++ [HumanMessage user_input]) 3000
    = Ok window
    /\ last_item window = Ok (HumanMessage user_input)
    /\ (List.length window <= 5)%nat
    /\ workflow_stream env tools checkpoint [HumanMessage user_input]
       = (checkpoint ++ [HumanMessage user_input; AIMessage reply],
          Ok [AIMessage reply])
    /\ forall tool_selection matched_tool others,
         _select_tool env tools window = Ok tool_selection ->
         _match_tools tools tool_selection = matched_tool :: others ->
         reply = tool_turn_reply env matched_tool user_input.
Proof.
  intros H.
  set (window := py_slice (checkpoint ++ [HumanMessage user_input]) (Some (-5)) None).
  assert (Hw : _trim_conversation_messages env
                 (checkpoint ++ [HumanMessage user_input]) 3000 = Ok window).
  { unfold _trim_conversation_messages, try_except. now rewrite H. }
  assert (Hl : last_item window = Ok (HumanMessage user_input))
    by apply fallback_tail_last.
  destruct (workflow_stream_appends_reply env tools checkpoint user_input window
              (HumanMessage user_input) Hw Hl) as (reply & Hc & Hs).
  exists window, reply. split; [exact Hw|]. split; [exact Hl|]. split.
  { subst window. change (-5) with (- Z.of_nat 5). rewrite py_slice_tail.
    rewrite length_skipn. lia. }
  split; [exact Hs|].
  intros sel t others Hsel Hm.
  rewrite (chatbot_agent_selected env tools
             (mkState (checkpoint ++ [HumanMessage user_input]) "English")
             window (HumanMessage user_input) sel Hw Hl Hsel), Hm in Hc.
  now injection Hc as <-.
Qed.

Lemma trim_failure_turn_uses_latest_input_witness :
  trim_messages env_trim_fails 3000 (sample_thread ++ [HumanMessage "list hosts"])
  = Raise (OtherError "token counting is not implemented for this model")
  /\ exists window reply,
       _trim_conversation_messages env_trim_fails
         (sample_thread ++ [HumanMessage "list hosts"]) 3000 = Ok window
       /\ last_item window = Ok (HumanMessage "list hosts")
       /\ workflow_stream env_trim_fails (initialize_zabbix_tools env_trim_fails)
            sample_thread [HumanMessage "list hosts"]
          = (sample_thread ++ [HumanMessage "list hosts"; AIMessage reply],
             Ok [AIMessage reply]).
Proof.
  split; [reflexivity|].
  destruct (trim_failure_turn_uses_latest_input env_trim_fails
              (initialize_zabbix_tools env_trim_fails) sample_thread "list hosts"
              (OtherError "token counting is not implemented for this model") eq_refl)
    as (window & reply & H1 & H2 & _ & H4 & _).
  exists window, reply. split; [exact H1|]. split; [exact H2 | exact H4].
Defined.

(** ** [interact] and the thread *)

Lemma window_has_last (env : Env) (msgs : list Message) :
  keeps_a_message env -> msgs <> [] ->
  exists window m,
    _trim_conversation_messages env msgs 3000 = Ok window
    /\ last_item window = Ok m.
Proof.
  intros Hk Hne. unfold _trim_conversation_messages, try_except.
  destruct (trim_messages env 3000 msgs) as [w|e] eqn:E.
  - destruct (last_item_nonempty w (Hk 3000 msgs w Hne E)) as [m Hm]. eauto.
  - destruct (exists_last Hne) as (l & x & ->).
    exists (py_slice (l ++ [x]) (Some (-5)) None), x. split; [reflexivity|].
    apply fallback_tail_last.
Qed.


Lemma keeps_a_message_keeps_all (z : option ZabbixAPI) (model : Prompt -> result string) :
  keeps_a_message (mk_env z model trim_keeps_all).
Proof. intros max_tokens msgs window Hne [= <-]. exact Hne. Qed.

Lemma keeps_a_message_fails (z : option ZabbixAPI) (model : Prompt -> result string) :
  keeps_a_message (mk_env z model trim_fails).
Proof. intros max_tokens msgs window Hne H. discriminate H. Qed.

(** X16. Over any series of calls of [interact] with a selected model, the
    thread grows by one user message and one assistant message per call, in
    that order, provided the trimmer never returns an empty window for a
    thread that has messages (the fallback tail never is empty): after [k]
    calls the thread is the old one followed by the [k] exchanges. *)
Theorem thread_grows_by_exchanges
    (c : ascii) (model : string) (turns : list (Env * string))
    (checkpoint : list Message) :
  Forall (fun t => keeps_a_message (fst t)) turns ->
  exists replies,
    List.length replies = List.length turns
    /\ run_thread (Some (String c model)) checkpoint turns
       = checkpoint ++ exchanges (map snd turns) replies.
Proof.
  revert checkpoint. induction turns as [|[env q] turns IH]; intros checkpoint H.
  - exists []. split; [reflexivity|]. cbn. now rewrite app_nil_r.
  - inversion H as [|? ? Hk Hrest]; subst. cbn [fst] in Hk.
    destruct (window_has_last env (checkpoint ++ [HumanMessage q]) Hk)
      as (window & m & Hw & Hl).
    { intros E. apply app_eq_nil in E as [_ E]. discriminate E. }
    destruct (workflow_stream_appends_reply env (initialize_zabbix_tools env)
                checkpoint q window m Hw Hl) as (reply & _ & W).
    cbn [run_thread].
    rewrite (interact_returns_reply env (initialize_zabbix_tools env) c model
               checkpoint q reply W).
    cbn [fst].
    destruct (IH (checkpoint ++ [HumanMessage q; AIMessage reply]) Hrest)
      as (replies & Hlen & Hrun).
    exists (reply :: replies). split; [cbn; now rewrite Hlen|].
    rewrite Hrun. cbn [map snd exchanges]. now rewrite <- app_assoc.
Qed.

Lemma thread_grows_by_exchanges_witness :
  Forall (fun t => keeps_a_message (fst t))
    [(env_echo "GENERAL", "hello"); (env_trim_fails, "and now?")]
  /\ exists replies,
       List.length replies = 2%nat
       /\ run_thread (Some "gpt-3.5-turbo") []
            [(env_echo "GENERAL", "hello"); (env_trim_fails, "and now?")]
          = [] ++ exchanges ["hello"; "and now?"] replies.
Proof.
  assert (H : Forall (fun t => keeps_a_message (fst t))
                [(env_echo "GENERAL", "hello"); (env_trim_fails, "and now?")]).
  { repeat constructor.
    - apply keeps_a_message_keeps_all.
    - apply keeps_a_message_fails. }
  split; [exact H|].
  exact (thread_grows_by_exchanges "g" "pt-3.5-turbo"
           [(env_echo "GENERAL", "hello"); (env_trim_fails, "and now?")] [] H).
Defined.

(** ** [get_users] *)

Lemma user_attempt_answer (c : user_client) (params : list (string * jval))
    (users : list Dict) :
  c params = Ok users -> users <> [] ->
  user_attempt (Some c) params
  = Ok (Some ("Users in Zabbix:" +++ nl +++ join (nl +++ nl) (map format_user users))).
Proof.
  intros H Hne. unfold user_attempt. cbn [bind]. rewrite H. cbn [bind].
  destruct users; [contradiction | reflexivity].
Qed.

Lemma user_attempt_skipped (c : user_client) (params : list (string * jval)) :
  (c params = Ok [] \/ exists e, c params = Raise e) ->
  try_except (user_attempt (Some c) params) (fun _ => Ok None) = Ok None.
Proof.
  unfold user_attempt. cbn [bind]. intros [H|[e H]]; rewrite H; reflexivity.
Qed.

Lemma user_attempts_first_answer (c : user_client)
    (before after : list (list (string * jval))) (params : list (string * jval))
    (users : list Dict) :
  Forall (fun p => c p = Ok [] \/ exists e, c p = Raise e) before ->
  c params = Ok users -> users <> [] ->
  user_attempts (Some c) (before ++ params :: after)
  = Ok ("Users in Zabbix:" +++ nl +++ join (nl +++ nl) (map format_user users)).
Proof.
  intros Hb Hp Hne. induction Hb as [|p before Hp0 _ IH]; cbn [app user_attempts].
  - now rewrite (user_attempt_answer c params users Hp Hne).
  - now rewrite (user_attempt_skipped c p Hp0).
Qed.

(** X17. [get_users] asks with its five parameter sets in order and answers
    with the first attempt that returns users: attempts that raise or return
    nothing are skipped, and the text lists the users of the first attempt
    that returns some. *)
Theorem get_users_first_answer
    (c : user_client) (before after : list (list (string * jval)))
    (params : list (string * jval)) (users : list Dict) :
  user_params = before ++ params :: after ->
  Forall (fun p => c p = Ok [] \/ exists e, c p = Raise e) before ->
  c params = Ok users ->
  users <> [] ->
  get_users_method (Some c)
  = Ok ("Users in Zabbix:" +++ nl +++ join (nl +++ nl) (map format_user users)).
Proof.
  intros Hsplit Hb Hp Hne. unfold get_users_method. rewrite Hsplit.
  now rewrite (user_attempts_first_answer c before after params users Hb Hp Hne).
Qed.

Lemma get_users_first_answer_witness :
  user_params
  = [[("output", JList (map JStr ["userid"; "username"; "name"; "surname"]))]]
    ++ [("output", JList (map JStr ["userid"; "alias"; "name"; "surname"]))]
       :: [ [("output", JList (map JStr ["userid"; "username"]))];
            [("output", JList (map JStr ["userid"; "alias"]))];
            [("output", JStr "extend")] ]
  /\ get_users_method (Some (user_client_alias_only sample_users))
     = Ok ("Users in Zabbix:" +++ nl
           +++ "User ID: 1" +++ nl +++ "  Username: Admin" +++ nl
           +++ "  Name: Zabbix Administrator" +++ nl +++ nl
           +++ "User ID: 2" +++ nl +++ "  Username: guest").
Proof.
  split; [reflexivity|].
  refine (get_users_first_answer (user_client_alias_only sample_users)
            [[("output", JList (map JStr ["userid"; "username"; "name"; "surname"]))]]
            _ [("output", JList (map JStr ["userid"; "alias"; "name"; "surname"]))]
            sample_users eq_refl _ eq_refl _).
  - constructor; [|constructor]. right. eexists. reflexivity.
  - discriminate.
Defined.

Lemma user_attempts_outcome (client : option user_client)
    (remaining : list (list (string * jval))) :
  user_attempts client remaining = Ok no_users_text
  \/ exists c params users,
       client = Some c /\ In params remaining /\ c params = Ok users /\ users <> []
       /\ user_attempts client remaining
          = Ok ("Users in Zabbix:" +++ nl +++ join (nl +++ nl) (map format_user users)).
Proof.
  induction remaining as [|params rest IH]; cbn [user_attempts]; [now left|].
  unfold user_attempt.
  destruct client as [c|]; cbn [bind try_except].
  - destruct (c params) as [users|e] eqn:E; cbn [bind try_except].
    + destruct users as [|u users].
      * destruct IH as [IH|(c' & p & us & [= <-] & Hin & Hp & Hne & IH)];
          [now left|].
        right. exists c, p, us. repeat split; auto. now right.
      * right. exists c, params, (u :: users).
        repeat split; auto; [now left | discriminate].
    + destruct IH as [IH|(c' & p & us & [= <-] & Hin & Hp & Hne & IH)];
        [now left|].
      right. exists c, p, us. repeat split; auto. now right.
  - destruct IH as [IH|(c' & p & us & Hc & _)]; [now left | discriminate Hc].
Qed.

(** X18. [get_users] never raises and never reports an error: without a
    client, or when every attempt raises or returns nothing, it says that no
    users could be retrieved; otherwise it lists the users one of its
    requests returned. Its text never starts with "Error retrieving users". *)
Theorem get_users_never_reports_an_error (client : option user_client) :
  exists text,
    get_users_method client = Ok text
    /\ prefix "Error retrieving users" text = false
    /\ (text = no_users_text
        \/ exists c params users,
             client = Some c /\ In params user_params
             /\ c params = Ok users /\ users <> []
             /\ text = "Users in Zabbix:" +++ nl
                       +++ join (nl +++ nl) (map format_user users))
    /\ (client = None -> text = no_users_text)
    /\ (forall c, client = Some c ->
          Forall (fun p => c p = Ok [] \/ exists e, c p = Raise e) user_params ->
          text = no_users_text).
Proof.
  unfold get_users_method.
  destruct (user_attempts_outcome client user_params)
    as [H|(c & params & users & -> & Hin & Hp & Hne & H)].
  - exists no_users_text. rewrite H. repeat split; auto.
  - eexists. rewrite H. split; [reflexivity|]. split; [reflexivity|].
    split; [right; now exists c, params, users|].
    split; [discriminate|].
    intros c' [= <-] Hall. exfalso.
    rewrite Forall_forall in Hall.
    destruct (Hall params Hin) as [E|[e E]]; rewrite E in Hp.
    + injection Hp as <-. now apply Hne.
    + discriminate Hp.
Qed.
